(** * rpc-gen: signature validation, method extraction and stub rendering

    A shallow embedding of [main.go] of samix73/rpc-gen (the revision with
    [validateMethodSignature]) and the properties its specification states
    about it.

    Conventions of the embedding.
    - Go strings are [string] (sequences of bytes).
    - Go [*ast.X] nodes are values of the inductive types of module [ast];
      the nilable pointers the program tests ([funcType], [Params],
      [Results]) are [option]s, the others are taken non-nil, as go/parser
      builds them.
    - A run-time panic (failed type assertion, index out of range, nil
      dereference) is the [Panic] outcome of the [result] monad.
    - The libraries the program calls are modelled on the fragment it uses:
      [strings], [fmt.Sprintf], [text/template]; [imports.Process],
      [path.Join], the Unicode case mapping and the success of file
      operations are parameters. *)

From Stdlib Require Import String Ascii List Bool Arith Lia Permutation.
Import ListNotations.

Set Warnings "-register-all".

Open Scope string_scope.
Open Scope list_scope.

(** ** Bytes and strings *)

(** The line feed and the double quote. *)
Definition nl : ascii := "010"%char.
Definition dq : ascii := "034"%char.

Definition str (c : ascii) : string := String c EmptyString.

(** [s[n:]] *)
Fixpoint drop (n : nat) (s : string) : string :=
  match n, s with
  | O, _ => s
  | S n', String _ s' => drop n' s'
  | S _, EmptyString => EmptyString
  end.

Fixpoint mapBytes (f : ascii -> ascii) (s : string) : string :=
  match s with
  | EmptyString => EmptyString
  | String c s' => String (f c) (mapBytes f s')
  end.

Fixpoint allBytes (p : ascii -> bool) (s : string) : bool :=
  match s with
  | EmptyString => true
  | String c s' => p c && allBytes p s'
  end.

Fixpoint concatStrings (l : list string) : string :=
  match l with
  | [] => EmptyString
  | s :: l' => (s ++ concatStrings l')%string
  end.

(** Package [strings]. *)
Module strings.

(** [len(s) >= len(prefix) && s[:len(prefix)] == prefix] *)
Fixpoint HasPrefix (s prefix : string) {struct prefix} : bool :=
  match prefix with
  | EmptyString => true
  | String a prefix' =>
      match s with
      | EmptyString => false
      | String b s' => (a =? b)%char && HasPrefix s' prefix'
      end
  end.

(** [if HasPrefix(s, prefix) { return s[len(prefix):] }; return s] *)
Definition TrimPrefix (s prefix : string) : string :=
  if HasPrefix s prefix then drop (String.length prefix) s else s.

Definition isUpper (c : ascii) : bool :=
  (65 <=? nat_of_ascii c)%nat && (nat_of_ascii c <=? 90)%nat.

Definition lowerByte (c : ascii) : ascii :=
  if isUpper c then ascii_of_nat (nat_of_ascii c + 32) else c.

Definition isASCII (s : string) : bool :=
  allBytes (fun c => (nat_of_ascii c <? 128)%nat) s.

(** [ToLower] lowers an ASCII-only string byte by byte; any other string
    goes through [Map(unicode.ToLower, s)], here the parameter
    [mapRunes]. *)
Definition ToLower (mapRunes : string -> string) (s : string) : string :=
  if isASCII s then mapBytes lowerByte s else mapRunes s.

(** [len(s) >= len(suffix) && s[len(s)-len(suffix):] == suffix] *)
Definition HasSuffix (s suffix : string) : bool :=
  (String.length suffix <=? String.length s)%nat
  && (drop (String.length s - String.length suffix) s =? suffix)%string.

End strings.

(** Package [fmt], on string operands: the verbs [%s] and [%v], [%%], the
    bad-verb and missing-operand forms and the [EXTRA] tail.  Flags, widths
    and the verbs [q x X T p] are outside the model. *)
Module fmt.

Fixpoint joinExtra (args : list string) : string :=
  match args with
  | [] => ""
  | [a] => "string=" ++ a
  | a :: rest => "string=" ++ a ++ ", " ++ joinExtra rest
  end.

Definition extra (args : list string) : string :=
  match args with
  | [] => ""
  | _ => "%!(EXTRA " ++ joinExtra args ++ ")"
  end.

Fixpoint doPrintf (format : string) (args : list string) : string :=
  match format with
  | EmptyString => extra args
  | String "%" EmptyString => "%!(NOVERB)" ++ extra args
  | String "%" (String "%" rest) => "%" ++ doPrintf rest args
  | String "%" (String verb rest) =>
      match args with
      | [] => "%!" ++ str verb ++ "(MISSING)" ++ doPrintf rest []
      | a :: args' =>
          (if (verb =? "s")%char || (verb =? "v")%char then a
           else "%!" ++ str verb ++ "(string=" ++ a ++ ")")
          ++ doPrintf rest args'
      end
  | String c rest => String c (doPrintf rest args)
  end.

Definition Sprintf (format : string) (args : list string) : string :=
  doPrintf format args.

End fmt.

(** ** Outcomes of Go code that may panic *)

Inductive PanicKind : Type :=
| NilDereference
| IndexOutOfRange
| TypeAssertionFailed.

Inductive result (A : Type) : Type :=
| Ok (a : A)
| Panic (p : PanicKind).

Arguments Ok {A} a.
Arguments Panic {A} p.

Definition bind {A B : Type} (r : result A) (k : A -> result B) : result B :=
  match r with
  | Ok a => k a
  | Panic p => Panic p
  end.

Notation "x <- e ;; k" := (bind e (fun x => k))
  (at level 61, e at next level, right associativity).

(** [l[i]] on a slice. *)
Definition index {A : Type} (l : list A) (i : nat) : result A :=
  match nth_error l i with
  | Some a => Ok a
  | None => Panic IndexOutOfRange
  end.

(** [p.f] through a nilable pointer [p]. *)
Definition deref {A : Type} (p : option A) : result A :=
  match p with
  | Some a => Ok a
  | None => Panic NilDereference
  end.

(** ** Package [go/ast], the part the program inspects *)

Module ast.

(** Expressions.  [Ident], [StarExpr], [SelectorExpr], [FuncType] and
    [InterfaceType] are the nodes the program tests for; the remaining
    constructors are the other expression nodes that can stand where a
    type is expected, and [CallExpr] and [FuncLit], which can stand in the
    length of an array type.  [Sel] of a [SelectorExpr] and the entries of
    [Names] are [*ast.Ident]s, kept as their [Name].  A [FuncLit] is kept
    by its type: the statements of its body are nodes of the walk (see
    [Node]). *)
Inductive Expr : Type :=
| BadExpr
| Ident (Name : string)
| Ellipsis (Elt : option Expr)
| BasicLit (Value : string)
| ParenExpr (X : Expr)
| SelectorExpr (X : Expr) (Sel : string)
| IndexExpr (X Index : Expr)
| StarExpr (X : Expr)
| ArrayType (Len : option Expr) (Elt : Expr)
| StructType (Fields : list Field)
| FuncTypeExpr (f : FuncType)
| InterfaceTypeExpr (i : InterfaceType)
| MapType (Key Value : Expr)
| ChanType (Value : Expr)
| CallExpr (Fun : Expr) (Args : list Expr)
| FuncLit (Type_ : FuncType)
with Field : Type :=
| mkField (Names : list string) (Type_ : Expr)
with FuncType : Type :=
| mkFuncType (Params : option (list Field)) (Results : option (list Field))
with InterfaceType : Type :=
| mkInterfaceType (Methods : list Field).

Definition Names (f : Field) : list string :=
  match f with mkField ns _ => ns end.

Definition Type_ (f : Field) : Expr :=
  match f with mkField _ t => t end.

(** [Params] and [Results] are [*FieldList]; a present list is its
    [List]. *)
Definition Params (f : FuncType) : option (list Field) :=
  match f with mkFuncType ps _ => ps end.

Definition Results (f : FuncType) : option (list Field) :=
  match f with mkFuncType _ rs => rs end.

Definition Methods (i : InterfaceType) : list Field :=
  match i with mkInterfaceType ms => ms end.

(** The nodes [ast.Inspect] walks through: a [TypeSpec] or any other node,
    with its children in source order.  The children of a [TypeSpec] are
    the nodes the walk reaches below it, inside its type expression: the
    body of a function literal there (as in the array length of
    [type A [len(func() int { type Inner interface{}; return 0 }())]int])
    can declare types of its own. *)
Inductive Node : Type :=
| TypeSpec (Name : string) (Type_ : Expr) (children : list Node)
| Other (children : list Node).

(** A file is its list of top-level declarations. *)
Definition File : Type := list Node.

(** [ast.Package]: name and files, the files in the order in which one
    [range] over the map [Files] yields them. *)
Record Package : Type := mkPackage {
  PkgName : string;
  Files : list (string * File)
}.

(** [FieldList.NumFields]: the number of parameters (or results) a list
    declares: one per name, one for an anonymous entry. *)
Definition entryArity (f : Field) : nat :=
  match Names f with
  | [] => 1
  | ns => List.length ns
  end.

Definition NumFields (fl : option (list Field)) : nat :=
  match fl with
  | None => 0
  | Some l => list_sum (map entryArity l)
  end.

End ast.

(** ** The program *)

Record Method : Type := mkMethod {
  Name : string;
  RequestType : string;
  ResponseType : string
}.

Record ServiceData : Type := mkServiceData {
  PackageName : string;
  ServiceName : string;
  Methods : list Method
}.

Fixpoint extractTypeName (expr : ast.Expr) : string :=
  match expr with
  | ast.Ident name => name
  | ast.StarExpr x => "*" ++ extractTypeName x
  | _ => "unknown"
  end.

(** The message a rejection logs (under [-verbose]); the position that
    precedes it in the log line is not modelled. *)
Inductive Violation : Type :=
| NotAValidFunction
| HasNoParameters
| NotExactlyTwoParameters
| FirstParameterNotValid
| FirstParameterNotContext
| SecondParameterNotValid
| HasNoReturnValues
| NotExactlyTwoReturnValues
| FirstReturnNotPointer
| SecondReturnNotValid
| SecondReturnNotError.

Record Diagnostic : Type := mkDiagnostic {
  diagFile : string;
  diagService : string;
  diagMethod : string;
  diagWhat : Violation
}.

(** What one call of the validator does: it returns [true], or it logs one
    diagnostic and returns [false]. *)
Inductive Verdict : Type :=
| Valid
| Invalid (d : Diagnostic).

Definition accepted (v : Verdict) : bool :=
  match v with
  | Valid => true
  | Invalid _ => false
  end.

Definition validateMethodSignature (fileName serviceName methodName : string)
    (funcType : option ast.FuncType) : result Verdict :=
  let reject w := Ok (Invalid (mkDiagnostic fileName serviceName methodName w)) in
  match funcType with
  | None =>
      (* [funcType.Pos()] reads a field of the nil receiver before the
         message is built *)
      _ <- deref funcType ;; reject NotAValidFunction
  | Some ft =>
      match ast.Params ft with
      | None => reject HasNoParameters
      | Some params =>
          if negb (List.length params =? 2)%nat then reject NotExactlyTwoParameters
          else
            p0 <- index params 0 ;;
            match ast.Type_ p0 with
            | ast.SelectorExpr x sel =>
                (* the type assertion of [ctxSelector.X] to an identifier has the
                   one-result form *)
                xName <- match x with
                         | ast.Ident n => Ok n
                         | _ => Panic TypeAssertionFailed
                         end ;;
                if negb (xName ++ "." ++ sel =? "context.Context")%string
                then reject FirstParameterNotContext
                else
                  p1 <- index params 1 ;;
                  match ast.Type_ p1 with
                  | ast.Ident _ =>
                      match ast.Results ft with
                      | None => reject HasNoReturnValues
                      | Some results =>
                          if negb (List.length results =? 2)%nat
                          then reject NotExactlyTwoReturnValues
                          else
                            r0 <- index results 0 ;;
                            match ast.Type_ r0 with
                            | ast.StarExpr _ =>
                                r1 <- index results 1 ;;
                                match ast.Type_ r1 with
                                | ast.Ident errName =>
                                    if negb (errName =? "error")%string
                                    then reject SecondReturnNotError
                                    else Ok Valid
                                | _ => reject SecondReturnNotValid
                                end
                            | _ => reject FirstReturnNotPointer
                            end
                      end
                  | _ => reject SecondParameterNotValid
                  end
            | _ => reject FirstParameterNotValid
            end
      end
  end.

(** The body of the loop of [extractMethods] for one entry of the method
    list: [None] when the entry adds no method. *)
Definition extractMethod (fileName serviceName : string) (method : ast.Field)
    : result (option Method) :=
  match ast.Type_ method with
  | ast.FuncTypeExpr funcType =>
      (* the argument [method.Names[0].Name] is evaluated before the call *)
      name0 <- index (ast.Names method) 0 ;;
      v <- validateMethodSignature fileName serviceName name0 (Some funcType) ;;
      if negb (accepted v) then Ok None
      else
        methodName <- index (ast.Names method) 0 ;;
        params <- deref (ast.Params funcType) ;;
        p1 <- index params 1 ;;
        let requestType := extractTypeName (ast.Type_ p1) in
        results <- deref (ast.Results funcType) ;;
        r0 <- index results 0 ;;
        let responseType := extractTypeName (ast.Type_ r0) in
        (* Remove pointer prefix from response type *)
        let responseType := strings.TrimPrefix responseType "*" in
        Ok (Some (mkMethod methodName requestType responseType))
  | _ => Ok None
  end.

(** The loop, with the slice built so far as accumulator. *)
Fixpoint extractMethodsFrom (fileName serviceName : string)
    (fields : list ast.Field) (methods : list Method) : result (list Method) :=
  match fields with
  | [] => Ok methods
  | method :: rest =>
      m <- extractMethod fileName serviceName method ;;
      extractMethodsFrom fileName serviceName rest
        (match m with
         | Some m' => methods ++ [m']
         | None => methods
         end)
  end.

Definition extractMethods (fileName serviceName : string)
    (interfaceType : ast.InterfaceType) : result (list Method) :=
  extractMethodsFrom fileName serviceName (ast.Methods interfaceType) [].

(** ** Package [text/template], the fragment the client template uses

    Text, the actions [{{.F}}] and [{{$.F}}] (a field of the current value or
    of the data [Execute] was called with) and [{{range P}} ... {{end}}].
    No trim markers, no [else], no variables other than [$]. *)

Module template.

(** The data a template is executed on, as reflection sees it. *)
Inductive Value : Type :=
| VString (s : string)
| VSlice (items : list Value)
| VStruct (fields : list (string * Value)).

Inductive Pipe : Type :=
| FieldOfDot (field : string)
| FieldOfRoot (field : string).

Inductive Node : Type :=
| TextNode (text : string)
| ActionNode (p : Pipe)
| RangeNode (p : Pipe) (body : list Node).

Definition Template : Type := list Node.

(** *** Parsing *)

Inductive item : Type :=
| itemText (s : string)
| itemAction (s : string).

(** The lexer alternates between text (up to the next left delimiter) and
    the inside of an action (up to the next right delimiter). *)
Fixpoint lexText (input acc : string) : option (list item) :=
  match input with
  | EmptyString => Some [itemText acc]
  | String "{" (String "{" rest) =>
      option_map (cons (itemText acc)) (lexAction rest "")
  | String c rest => lexText rest (acc ++ str c)
  end
with lexAction (input acc : string) : option (list item) :=
  match input with
  | EmptyString => None
  | String "}" (String "}" rest) =>
      option_map (cons (itemAction acc)) (lexText rest "")
  | String c rest => lexAction rest (acc ++ str c)
  end.

Definition isSpace (c : ascii) : bool := (c =? " ")%char.

Fixpoint trimLeft (s : string) : string :=
  match s with
  | String c s' => if isSpace c then trimLeft s' else s
  | EmptyString => EmptyString
  end.

Fixpoint trimRight (s : string) : string :=
  match s with
  | EmptyString => EmptyString
  | String c s' =>
      let t := trimRight s' in
      if isSpace c && (t =? "")%string then EmptyString else String c t
  end.

Definition trimSpace (s : string) : string := trimRight (trimLeft s).

Definition isAlnum (c : ascii) : bool :=
  let n := nat_of_ascii c in
  ((48 <=? n) && (n <=? 57) || (65 <=? n) && (n <=? 90)
   || (97 <=? n) && (n <=? 122) || (n =? 95))%nat.

Definition isFieldName (s : string) : bool :=
  negb (s =? "")%string && allBytes isAlnum s.

Definition parsePipe (s : string) : option Pipe :=
  match s with
  | String "." f => if isFieldName f then Some (FieldOfDot f) else None
  | String "$" (String "." f) =>
      if isFieldName f then Some (FieldOfRoot f) else None
  | _ => None
  end.

Inductive action : Type :=
| actEnd
| actRange (p : Pipe)
| actPipe (p : Pipe).

Definition parseAction (s : string) : option action :=
  let s := trimSpace s in
  if (s =? "end")%string then Some actEnd
  else if strings.HasPrefix s "range "
       then option_map actRange (parsePipe (trimSpace (drop 6 s)))
       else option_map actPipe (parsePipe s).

(** [parseItems] reads nodes up to the end of the input (second component
    [None]) or up to an [{{end}}] (second component: what follows it).
    Every call consumes an item, so the number of items is fuel enough. *)
Fixpoint parseItems (fuel : nat) (items : list item)
    : option (list Node * option (list item)) :=
  match fuel with
  | O => None
  | S fuel' =>
      match items with
      | [] => Some ([], None)
      | itemText s :: rest =>
          match parseItems fuel' rest with
          | Some (ns, r) =>
              Some (if (s =? "")%string then ns else TextNode s :: ns, r)
          | None => None
          end
      | itemAction a :: rest =>
          match parseAction a with
          | None => None
          | Some actEnd => Some ([], Some rest)
          | Some (actPipe p) =>
              match parseItems fuel' rest with
              | Some (ns, r) => Some (ActionNode p :: ns, r)
              | None => None
              end
          | Some (actRange p) =>
              match parseItems fuel' rest with
              | Some (body, Some rest') =>
                  match parseItems fuel' rest' with
                  | Some (ns, r) => Some (RangeNode p body :: ns, r)
                  | None => None
                  end
              | _ => None
              end
          end
      end
  end.

(** [Parse]: [None] is a parse error. *)
Definition Parse (text : string) : option Template :=
  match lexText text "" with
  | None => None
  | Some items =>
      match parseItems (S (List.length items)) items with
      | Some (ns, None) => Some ns
      | _ => None
      end
  end.

(** *** Execution *)

Inductive ExecError : Type :=
| CantEvaluateField (field : string)
| CantIterate
| Unmodelled.

Inductive Exec (A : Type) : Type :=
| Done (a : A)
| Fail (e : ExecError).

Arguments Done {A} a.
Arguments Fail {A} e.

Definition andThen {A B : Type} (r : Exec A) (k : A -> Exec B) : Exec B :=
  match r with
  | Done a => k a
  | Fail e => Fail e
  end.

(** What the calls of [f] on the elements of [l] write, in order; the
    first error ends the execution. *)
Fixpoint writeAll {A : Type} (f : A -> Exec string) (l : list A)
    : Exec string :=
  match l with
  | [] => Done ""
  | x :: l' =>
      andThen (f x) (fun s =>
      andThen (writeAll f l') (fun t => Done (s ++ t)%string))
  end.

Fixpoint lookup (f : string) (fields : list (string * Value))
    : option Value :=
  match fields with
  | [] => None
  | (k, v) :: rest => if (k =? f)%string then Some v else lookup f rest
  end.

Definition evalField (v : Value) (f : string) : Exec Value :=
  match v with
  | VStruct fields =>
      match lookup f fields with
      | Some x => Done x
      | None => Fail (CantEvaluateField f)
      end
  | _ => Fail (CantEvaluateField f)
  end.

Definition evalPipe (root dot : Value) (p : Pipe) : Exec Value :=
  match p with
  | FieldOfDot f => evalField dot f
  | FieldOfRoot f => evalField root f
  end.

(** A string prints as itself; the printing of slices and structs is not
    modelled. *)
Definition printValue (v : Value) : Exec string :=
  match v with
  | VString s => Done s
  | _ => Fail Unmodelled
  end.

Fixpoint walk (root dot : Value) (n : Node) {struct n} : Exec string :=
  match n with
  | TextNode s => Done s
  | ActionNode p => andThen (evalPipe root dot p) printValue
  | RangeNode p body =>
      andThen (evalPipe root dot p) (fun v =>
      match v with
      | VSlice items =>
          writeAll (fun elem => writeAll (walk root elem) body) items
      | _ => Fail CantIterate
      end)
  end.

Definition Execute (t : Template) (data : Value) : Exec string :=
  writeAll (walk data data) t.

End template.

(** The raw string literal [clientTemplate], line by line; it starts and
    ends with a line feed. *)
Definition clientTemplateLines : list string :=
  [ "";
    "package {{.PackageName}}";
    "";
    "func init() {";
    "{{range .Methods}}";
    "   gob.Register({{.ResponseType}}{})";
    "   gob.Register({{.RequestType}}{})";
    "{{end}}";
    "}";
    "";
    "type {{.ServiceName}}Client struct {";
    "   client *rpc.Client";
    "}";
    "";
    "func New{{.ServiceName}}Client(address string) (" ++ "*{{.ServiceName}}Client, error) {";
    "   client, err := rpc.Dial(" ++ str dq ++ "tcp" ++ str dq ++ ", address)";
    "   if err != nil {";
    "       return nil, fmt.Errorf(" ++ str dq ++ "{{$.PackageName}}.New{{.ServiceName}}Client rpc.Dial error: %w" ++ str dq ++ ", err)";
    "   }";
    "";
    "   return &{{.ServiceName}}Client{client: client}, nil";
    "}";
    "";
    "{{range .Methods}}";
    "func (c *{{$.ServiceName}}Client) {{.Name}}(request {{.RequestType}}) (" ++ "*{{.ResponseType}}, error) {";
    "   var response {{.ResponseType}}";
    "   err := c.client.Call(" ++ str dq ++ "{{$.ServiceName}}.{{.Name}}" ++ str dq ++ ", request, &response)";
    "   if err != nil {";
    "       return nil, fmt.Errorf(" ++ str dq ++ "{{$.PackageName}}.{{$.ServiceName}}Client.{{.Name}} Call error: %w" ++ str dq ++ ", err)";
    "   }";
    "";
    "   return &response, nil";
    "}";
    "{{end}}";
    "";
    "func (c *{{.ServiceName}}Client) Close() error {";
    "   return c.client.Close()";
    "}";
    "" ]%string.

Fixpoint joinLines (lines : list string) : string :=
  match lines with
  | [] => ""
  | [l] => l
  | l :: rest => l ++ str nl ++ joinLines rest
  end.

Definition clientTemplate : string := joinLines clientTemplateLines.

Definition reflectMethod (m : Method) : template.Value :=
  template.VStruct
    [ ("Name", template.VString (Name m));
      ("RequestType", template.VString (RequestType m));
      ("ResponseType", template.VString (ResponseType m)) ].

Definition reflectServiceData (sd : ServiceData) : template.Value :=
  template.VStruct
    [ ("PackageName", template.VString (PackageName sd));
      ("ServiceName", template.VString (ServiceName sd));
      ("Methods", template.VSlice (map reflectMethod (Methods sd))) ].

(** ** The driver *)

(** [ast.Inspect] with a callback that always asks to go on (the function
    literal of [main] ends in [return true] on every path): the callback
    sees the node, then the children are walked in order, below a
    [TypeSpec] as below any other node.  [S] is the state the callback
    closes over. *)
Fixpoint foldM {A S : Type} (f : A -> S -> result S) (l : list A) (s : S)
    : result S :=
  match l with
  | [] => Ok s
  | x :: l' => s' <- f x s ;; foldM f l' s'
  end.

Fixpoint Inspect {S : Type} (f : ast.Node -> S -> result S) (n : ast.Node)
    (s : S) {struct n} : result S :=
  s' <- f n s ;;
  match n with
  | ast.TypeSpec _ _ children => foldM (Inspect f) children s'
  | ast.Other children => foldM (Inspect f) children s'
  end.

(** The function literal [main] passes to [ast.Inspect]; it appends to
    [serviceDatas]. *)
Definition visit (pkgName fileName : string) (n : ast.Node)
    (serviceDatas : list ServiceData) : result (list ServiceData) :=
  match n with
  | ast.TypeSpec serviceName (ast.InterfaceTypeExpr interfaceType) _ =>
      (* Extract methods from interface *)
      methods <- extractMethods fileName serviceName interfaceType ;;
      Ok (serviceDatas ++ [mkServiceData pkgName serviceName methods])
  | _ => Ok serviceDatas
  end.

Definition scanFile (pkgName : string) (entry : string * ast.File)
    (serviceDatas : list ServiceData) : result (list ServiceData) :=
  let (fileName, file) := entry in
  foldM (Inspect (visit pkgName fileName)) file serviceDatas.

Definition scanPackage (pkg : ast.Package) (serviceDatas : list ServiceData)
    : result (list ServiceData) :=
  foldM (scanFile (ast.PkgName pkg)) (ast.Files pkg) serviceDatas.

(** The two nested [range] loops of [main] over the parsed packages, the
    packages given in the order in which the map yields them. *)
Definition scan (pkgs : list ast.Package) : result (list ServiceData) :=
  foldM scanPackage pkgs [].

(** The file system: the files written, latest first. *)
Definition FS : Type := list (string * string).

Fixpoint readFile (path : string) (fs : FS) : option string :=
  match fs with
  | [] => None
  | (p, content) :: rest =>
      if (p =? path)%string then Some content else readFile path rest
  end.

Definition writeFile (path content : string) (fs : FS) : FS :=
  (path, content) :: fs.

(** What the program takes from the environment of one run: the flag
    [-output], the Unicode case mapping behind [strings.ToLower],
    [imports.Process] on the expanded text as it answers in that environment
    (called without options, it looks the packages up where the run takes
    place; [None]: it returns an error), [path.Join], and whether
    [os.Create] and [file.Write] fail.  Two runs are two environments. *)
Record Env : Type := mkEnv {
  outputDir : string;
  mapRunes : string -> string;
  imports_Process : string -> option string;
  path_Join : string -> string -> string;
  createFails : FS -> string -> bool;
  writeFails : FS -> string -> string -> bool
}.

Inductive GenError : Type :=
| ErrExecutingTemplate (e : template.ExecError)
| ErrImports
| ErrCreatingFile (fileName : string)
| ErrWritingFile (fileName : string).

(** How the process ends. *)
Inductive Termination : Type :=
| Exit (code : nat)
| Crash (p : PanicKind).

Section Driver.

Variable env : Env.

(** The first half of [generateClientCode]: the template executed into
    the buffer, then [imports.Process] on the buffer. *)
Definition formattedText (temp : template.Template)
    (serviceData : ServiceData) : GenError + string :=
  match template.Execute temp (reflectServiceData serviceData) with
  | template.Fail e => inl (ErrExecutingTemplate e)
  | template.Done buf =>
      match imports_Process env buf with
      | None => inl ErrImports
      | Some formatted => inr formatted
      end
  end.

Definition fileName (serviceData : ServiceData) : string :=
  fmt.Sprintf "%s_client_gen.go"
    [strings.ToLower (mapRunes env) (ServiceName serviceData)].

Definition filePath (serviceData : ServiceData) : string :=
  path_Join env (outputDir env) (fileName serviceData).

(** [os.Create] truncates the file; a failed [Write] leaves it so. *)
Definition generateClientCode (temp : template.Template)
    (serviceData : ServiceData) (fs : FS) : FS * option GenError :=
  match formattedText temp serviceData with
  | inl err => (fs, Some err)
  | inr formatted =>
      let path := filePath serviceData in
      if createFails env fs path
      then (fs, Some (ErrCreatingFile (fileName serviceData)))
      else
        let fs := writeFile path "" fs in
        if writeFails env fs path formatted
        then (fs, Some (ErrWritingFile (fileName serviceData)))
        else (writeFile path formatted fs, None)
  end.

(** The generation loop of [main]. *)
Fixpoint generateAll (temp : template.Template)
    (serviceDatas : list ServiceData) (fs : FS) : Termination * FS :=
  match serviceDatas with
  | [] => (Exit 0, fs)
  | serviceData :: rest =>
      match generateClientCode temp serviceData fs with
      | (fs', Some _) => (Exit 1, fs')
      | (fs', None) => generateAll temp rest fs'
      end
  end.

(** [main], from the result of [parser.ParseDir] on: [None] when
    [os.Getwd] or [parser.ParseDir] returned an error. *)
Definition main (parsed : option (list ast.Package)) (fs : FS)
    : Termination * FS :=
  match parsed with
  | None => (Exit 1, fs)
  | Some pkgs =>
      match scan pkgs with
      | Panic p => (Crash p, fs)
      | Ok serviceDatas =>
          match template.Parse clientTemplate with
          | None => (Exit 1, fs)
          | Some temp => generateAll temp serviceDatas fs
          end
      end
  end.

End Driver.

(** The tree [temp.Parse(clientTemplate)] builds. *)
Definition parsedClientTemplate : template.Template :=
  Eval vm_compute in
    match template.Parse clientTemplate with
    | Some t => t
    | None => []
    end.

(** ** The vocabulary of the specification *)

Module Spec.

(** The parameters (or results) a signature declares, by their types: an
    entry [a, b T] declares two parameters of type [T], an entry without
    name declares one. *)
Definition declared (fl : option (list ast.Field)) : list ast.Expr :=
  match fl with
  | None => []
  | Some l => flat_map (fun f => repeat (ast.Type_ f) (ast.entryArity f)) l
  end.

(** A qualified reference whose fully-qualified name is [context.Context]. *)
Definition isCallContext (e : ast.Expr) : bool :=
  match e with
  | ast.SelectorExpr (ast.Ident pkg) sel =>
      (pkg =? "context")%string && (sel =? "Context")%string
  | _ => false
  end.

(** A plain (unqualified) named type. *)
Definition isPlainNamed (e : ast.Expr) : bool :=
  match e with
  | ast.Ident _ => true
  | _ => false
  end.

(** A named type, plain or qualified. *)
Definition isNamed (e : ast.Expr) : bool :=
  match e with
  | ast.Ident _ => true
  | ast.SelectorExpr (ast.Ident _) _ => true
  | _ => false
  end.

Definition isPointerToNamed (e : ast.Expr) : bool :=
  match e with
  | ast.StarExpr x => isNamed x
  | _ => false
  end.

Definition isPointer (e : ast.Expr) : bool :=
  match e with
  | ast.StarExpr _ => true
  | _ => false
  end.

(** The identifier [error]. *)
Definition isError (e : ast.Expr) : bool :=
  match e with
  | ast.Ident n => (n =? "error")%string
  | _ => false
  end.

(** The six conditions of the required shape, as the specification lists
    them. *)
Definition requiredShape (ft : ast.FuncType) : bool :=
  match declared (ast.Params ft), declared (ast.Results ft) with
  | [p0; p1], [r0; r1] =>
      isCallContext p0 && isPlainNamed p1 && isPointerToNamed r0 && isError r1
  | _, _ => false
  end.

(** The same with the fifth condition asking for a pointer only. *)
Definition pointerShape (ft : ast.FuncType) : bool :=
  match declared (ast.Params ft), declared (ast.Results ft) with
  | [p0; p1], [r0; r1] =>
      isCallContext p0 && isPlainNamed p1 && isPointer r0 && isError r1
  | _, _ => false
  end.

(** No entry of the parameter or result list declares several names. *)
Definition oneNameEach (l : option (list ast.Field)) : bool :=
  match l with
  | None => true
  | Some fs => forallb (fun f => (List.length (ast.Names f) <=? 1)%nat) fs
  end.

Definition ungrouped (ft : ast.FuncType) : bool :=
  oneNameEach (ast.Params ft) && oneNameEach (ast.Results ft).

(** The conditions the validator tests, on the entries of the two lists. *)
Definition entryShape (ft : ast.FuncType) : bool :=
  match ast.Params ft, ast.Results ft with
  | Some [p0; p1], Some [r0; r1] =>
      isCallContext (ast.Type_ p0) && isPlainNamed (ast.Type_ p1)
      && isPointer (ast.Type_ r0) && isError (ast.Type_ r1)
  | _, _ => false
  end.

(** The first parameter is a selector whose operand is not an identifier
    (as in [a.b.Context]), in a list of two entries. *)
Definition nestedQualifier (ft : ast.FuncType) : bool :=
  match ast.Params ft with
  | Some [p0; _] =>
      match ast.Type_ p0 with
      | ast.SelectorExpr (ast.Ident _) _ => false
      | ast.SelectorExpr _ _ => true
      | _ => false
      end
  | _ => false
  end.

(** An entry of a method list as go/parser builds it from a method
    declaration or an embedded interface: a function type comes with the
    method's name, and the operand of a selector is a package name. *)
Definition methodEntry (f : ast.Field) : bool :=
  match ast.Type_ f with
  | ast.FuncTypeExpr ft =>
      negb (Nat.eqb (List.length (ast.Names f)) 0) && negb (nestedQualifier ft)
  | _ => true
  end.

(** The name an entry declares as a method. *)
Definition declaredName (f : ast.Field) : option string :=
  match ast.Type_ f with
  | ast.FuncTypeExpr _ => hd_error (ast.Names f)
  | _ => None
  end.

(** The entry is a method the validator accepts. *)
Definition acceptedEntry (f : ast.Field) : bool :=
  match ast.Type_ f with
  | ast.FuncTypeExpr ft => entryShape ft
  | _ => false
  end.

(** The interface declarations of a tree, in the order of the traversal:
    a declaration comes before those nested in its type expression. *)
Definition declaredInterface (n : ast.Node)
    : list (string * ast.InterfaceType) :=
  match n with
  | ast.TypeSpec name (ast.InterfaceTypeExpr it) _ => [(name, it)]
  | _ => []
  end.

Fixpoint interfacesOfNode (n : ast.Node)
    : list (string * ast.InterfaceType) :=
  declaredInterface n
  ++ match n with
     | ast.TypeSpec _ _ children => flat_map interfacesOfNode children
     | ast.Other children => flat_map interfacesOfNode children
     end.

Record Found : Type := mkFound {
  inPackage : string;
  inFile : string;
  declName : string;
  declType : ast.InterfaceType
}.

Definition interfacesOfFile (pkgName : string) (entry : string * ast.File)
    : list Found :=
  map (fun d => mkFound pkgName (fst entry) (fst d) (snd d))
      (flat_map interfacesOfNode (snd entry)).

Definition interfacesOf (pkgs : list ast.Package) : list Found :=
  flat_map (fun pkg =>
              flat_map (interfacesOfFile (ast.PkgName pkg)) (ast.Files pkg))
           pkgs.

(** A type name with every leading indirection marker removed. *)
Fixpoint bareName (s : string) : string :=
  match s with
  | String "*" s' => bareName s'
  | _ => s
  end.

(** The names of the methods an interface declares, and of those among
    them the validator accepts. *)
Definition nameOf (f : ast.Field) : list string :=
  match declaredName f with
  | Some n => [n]
  | None => []
  end.

Definition methodNames (l : list ast.Field) : list string :=
  flat_map nameOf l.

Definition acceptedNames (l : list ast.Field) : list string :=
  methodNames (filter acceptedEntry l).

(** Every entry of the interface is a method entry; none is accepted. *)
Definition wellFormed (d : Found) : bool :=
  forallb methodEntry (ast.Methods (declType d)).

Definition noneAccepted (d : Found) : bool :=
  negb (existsb acceptedEntry (ast.Methods (declType d))).

(** *** Reading the generated text by lines *)

Definition prepend (c : ascii) (ls : list string) : list string :=
  match ls with
  | [] => [str c]
  | l :: rest => String c l :: rest
  end.

Fixpoint lines (s : string) : list string :=
  match s with
  | EmptyString => [EmptyString]
  | String c s' =>
      if (c =? nl)%char then EmptyString :: lines s'
      else prepend c (lines s')
  end.

Definition prependString (x : string) (ls : list string) : list string :=
  match ls with
  | [] => [x]
  | l :: rest => (x ++ l)%string :: rest
  end.

(** The lines of [a ++ r] from those of [a] and of [r]: the last line of
    [a] goes on into the first line of [r]. *)
Fixpoint joinOnto (a r : list string) : list string :=
  match a with
  | [] => r
  | [l] => prependString l r
  | l :: a' => l :: joinOnto a' r
  end.

Definition singleLine (s : string) : bool :=
  allBytes (fun c => negb (c =? nl)%char) s.

(** The names of a service description hold no line feed. *)
Definition singleLineMethod (m : Method) : bool :=
  singleLine (Name m) && singleLine (RequestType m)
  && singleLine (ResponseType m).

Definition singleLineNames (sd : ServiceData) : bool :=
  singleLine (PackageName sd) && singleLine (ServiceName sd)
  && forallb singleLineMethod (Methods sd).

(** A type-registration statement. *)
Definition isRegistration (l : string) : bool :=
  strings.HasPrefix l "   gob.Register(".

Definition registration (typeName : string) : string :=
  "   gob.Register(" ++ typeName ++ "{})".

(** The head of a method of the client type, and the statement by which a
    call-wrapping method invokes the remote procedure. *)
Definition isClientMethod (l : string) : bool :=
  strings.HasPrefix l "func (c *".

Definition isRemoteCall (l : string) : bool :=
  strings.HasPrefix l "   err := c.client.Call(".

Definition remoteCall (serviceName methodName : string) : string :=
  "   err := c.client.Call(" ++ str dq ++ serviceName ++ "." ++ methodName
  ++ str dq ++ ", request, &response)".

Definition isConstructor (l : string) : bool :=
  strings.HasPrefix l "func New".

(** The statement by which the close method delegates. *)
Definition isCloseDelegation (l : string) : bool :=
  (l =? "   return c.client.Close()")%string.

Definition isFunc (l : string) : bool :=
  strings.HasPrefix l "func ".

(** The head of a top-level function or type declaration. *)
Definition isTopLevel (l : string) : bool :=
  strings.HasPrefix l "func " || strings.HasPrefix l "type ".

Definition count (p : string -> bool) (text : string) : nat :=
  List.length (filter p (lines text)).

(** The lines of the generated text: what precedes the registrations, the
    lines of one registration pair, what stands between the registrations
    and the methods, the lines of one call-wrapping method, and what
    follows the methods. *)
Definition headLines (packageName : string) : list string :=
  [ ""; "package " ++ packageName; ""; "func init() {" ]%string.

Definition registrationLines (m : Method) : list string :=
  [ ""; registration (ResponseType m); registration (RequestType m) ].

Definition clientLines (packageName serviceName : string) : list string :=
  [ "";
    "}";
    "";
    "type " ++ serviceName ++ "Client struct {";
    "   client *rpc.Client";
    "}";
    "";
    "func New" ++ serviceName ++ "Client(address string) (" ++ "*"
      ++ serviceName ++ "Client, error) {";
    "   client, err := rpc.Dial(" ++ str dq ++ "tcp" ++ str dq ++ ", address)";
    "   if err != nil {";
    "       return nil, fmt.Errorf(" ++ str dq ++ packageName ++ ".New"
      ++ serviceName ++ "Client rpc.Dial error: %w" ++ str dq ++ ", err)";
    "   }";
    "";
    "   return &" ++ serviceName ++ "Client{client: client}, nil";
    "}";
    "" ]%string.

Definition methodLines (packageName serviceName : string) (m : Method)
    : list string :=
  [ "";
    "func (c *" ++ serviceName ++ "Client) " ++ Name m ++ "(request "
      ++ RequestType m ++ ") (" ++ "*" ++ ResponseType m ++ ", error) {";
    "   var response " ++ ResponseType m;
    remoteCall serviceName (Name m);
    "   if err != nil {";
    "       return nil, fmt.Errorf(" ++ str dq ++ packageName ++ "."
      ++ serviceName ++ "Client." ++ Name m ++ " Call error: %w" ++ str dq
      ++ ", err)";
    "   }";
    "";
    "   return &response, nil";
    "}" ]%string.

Definition closeLines (serviceName : string) : list string :=
  [ "";
    "";
    "func (c *" ++ serviceName ++ "Client) Close() error {";
    "   return c.client.Close()";
    "}";
    "" ]%string.

Definition generatedLines (sd : ServiceData) : list string :=
  headLines (PackageName sd)
  ++ flat_map registrationLines (Methods sd)
  ++ clientLines (PackageName sd) (ServiceName sd)
  ++ flat_map (methodLines (PackageName sd) (ServiceName sd)) (Methods sd)
  ++ closeLines (ServiceName sd).

(** The text the template expands to when there is no method. *)
Definition bareClient (packageName serviceName : string) : string :=
  joinLines
    [ "";
      "package " ++ packageName;
      "";
      "func init() {";
      "";
      "}";
      "";
      "type " ++ serviceName ++ "Client struct {";
      "   client *rpc.Client";
      "}";
      "";
      "func New" ++ serviceName ++ "Client(address string) (" ++ "*"
        ++ serviceName ++ "Client, error) {";
      "   client, err := rpc.Dial(" ++ str dq ++ "tcp" ++ str dq ++ ", address)";
      "   if err != nil {";
      "       return nil, fmt.Errorf(" ++ str dq ++ packageName ++ ".New"
        ++ serviceName ++ "Client rpc.Dial error: %w" ++ str dq ++ ", err)";
      "   }";
      "";
      "   return &" ++ serviceName ++ "Client{client: client}, nil";
      "}";
      "";
      "";
      "";
      "func (c *" ++ serviceName ++ "Client) Close() error {";
      "   return c.client.Close()";
      "}";
      "" ]%string.

End Spec.

(** ** Sample declarations *)

Module Examples.

Definition contextType : ast.Expr :=
  ast.SelectorExpr (ast.Ident "context") "Context".

Definition errorType : ast.Expr := ast.Ident "error".

Definition method (name : string) (ft : ast.FuncType) : ast.Field :=
  ast.mkField [name] (ast.FuncTypeExpr ft).

(** [Say(ctx context.Context, req Msg) (R, error)] with [R] a pointer to
    [Reply]. *)
Definition say : ast.FuncType :=
  ast.mkFuncType
    (Some [ast.mkField ["ctx"] contextType; ast.mkField ["req"] (ast.Ident "Msg")])
    (Some [ast.mkField [] (ast.StarExpr (ast.Ident "Reply"));
           ast.mkField [] errorType]).

(** [List(ctx context.Context, req Query) (R, error)] with [R] a pointer
    to the slice type [[]Item]. *)
Definition listItems : ast.FuncType :=
  ast.mkFuncType
    (Some [ast.mkField ["ctx"] contextType; ast.mkField ["req"] (ast.Ident "Query")])
    (Some [ast.mkField [] (ast.StarExpr (ast.ArrayType None (ast.Ident "Item")));
           ast.mkField [] errorType]).

(** [Get(ctx context.Context, req Key) (R, error)] with [R] a pointer to a
    pointer to [Reply]. *)
Definition getTwice : ast.FuncType :=
  ast.mkFuncType
    (Some [ast.mkField ["ctx"] contextType; ast.mkField ["req"] (ast.Ident "Key")])
    (Some [ast.mkField [] (ast.StarExpr (ast.StarExpr (ast.Ident "Reply")));
           ast.mkField [] errorType]).

(** The same as [say] with the first parameter of type [a.b.Context]: a
    selector whose operand is the selector [a.b]. *)
Definition sayNested : ast.FuncType :=
  ast.mkFuncType
    (Some [ast.mkField ["ctx"]
             (ast.SelectorExpr (ast.SelectorExpr (ast.Ident "a") "b") "Context");
           ast.mkField ["req"] (ast.Ident "Msg")])
    (Some [ast.mkField [] (ast.StarExpr (ast.Ident "Reply"));
           ast.mkField [] errorType]).

(** [Put(ctx context.Context, key, value Blob) (R, error)]: three
    parameters in two entries. *)
Definition putGrouped : ast.FuncType :=
  ast.mkFuncType
    (Some [ast.mkField ["ctx"] contextType;
           ast.mkField ["key"; "value"] (ast.Ident "Blob")])
    (Some [ast.mkField [] (ast.StarExpr (ast.Ident "Ack"));
           ast.mkField [] errorType]).

(** [Say(req M) R] with [M] a pointer to [Msg] and [R] a pointer to
    [Reply]: no context parameter, no error result. *)
Definition sayBare : ast.FuncType :=
  ast.mkFuncType
    (Some [ast.mkField ["req"] (ast.StarExpr (ast.Ident "Msg"))])
    (Some [ast.mkField [] (ast.StarExpr (ast.Ident "Reply"))]).

(** An interface that declares [Say] twice. *)
Definition twice : ast.InterfaceType :=
  ast.mkInterfaceType [method "Say" say; method "Say" say].

(** An interface with an embedded interface and three methods, in the
    order [Get], [Ping] (not eligible), [Say]. *)
Definition mixed : ast.InterfaceType :=
  ast.mkInterfaceType
    [ast.mkField [] (ast.SelectorExpr (ast.Ident "io") "Closer");
     method "Get" getTwice; method "Ping" sayBare; method "Say" say].

(** [type Echo interface { Say(req M) R }]: no eligible method. *)
Definition echoBare : ast.InterfaceType :=
  ast.mkInterfaceType [method "Say" sayBare].

Definition echo : ast.InterfaceType :=
  ast.mkInterfaceType [method "Say" say].

Definition echoPackage : ast.Package :=
  ast.mkPackage "api"
    [("echo.go",
      [ast.Other [ast.TypeSpec "Msg" (ast.StructType []) [];
                  ast.TypeSpec "Echo" (ast.InterfaceTypeExpr echoBare) []]])].

(** [interface { func() }]: one type element of function type, which
    go/parser keeps as an entry without names. *)
Definition funcElement : ast.InterfaceType :=
  ast.mkInterfaceType
    [ast.mkField [] (ast.FuncTypeExpr (ast.mkFuncType (Some []) None))].

(** A file with [type Echo interface { Say(...) }] followed by
    [type C interface { func() }]. *)
Definition elementPackage : ast.Package :=
  ast.mkPackage "api"
    [("c.go",
      [ast.Other [ast.TypeSpec "Echo" (ast.InterfaceTypeExpr echo) []];
       ast.Other [ast.TypeSpec "C" (ast.InterfaceTypeExpr funcElement) []]])].

(** [len(func() int { ... }())], the length of an array type. *)
Definition lenOfCall : ast.Expr :=
  ast.CallExpr (ast.Ident "len")
    [ast.CallExpr
       (ast.FuncLit
          (ast.mkFuncType (Some []) (Some [ast.mkField [] (ast.Ident "int")])))
       []].

(** A file with
    [type A [len(func() int { type Inner interface { Say(...) }; return 0 }())]int]:
    the declaration of [Inner] is in the body of the function literal,
    below the declaration of [A]. *)
Definition nestedPackage : ast.Package :=
  ast.mkPackage "api"
    [("a.go",
      [ast.Other
         [ast.TypeSpec "A" (ast.ArrayType (Some lenOfCall) (ast.Ident "int"))
            [ast.Other
               [ast.Other
                  [ast.TypeSpec "Inner" (ast.InterfaceTypeExpr echo) []]];
             ast.Other []]]])].

Definition threeMethods : ServiceData :=
  mkServiceData "api" "Store"
    [ mkMethod "Get" "Key" "Item";
      mkMethod "Put" "Item" "Ack";
      mkMethod "Delete" "Key" "Ack" ].

(** An environment in which [imports.Process] rejects a text that
    mentions [Broken] and leaves any other text as it is, and file
    operations succeed. *)
Fixpoint mentions (word s : string) : bool :=
  match s with
  | EmptyString => strings.HasPrefix EmptyString word
  | String _ s' => strings.HasPrefix s word || mentions word s'
  end.

Definition sampleEnv : Env :=
  mkEnv "out" (fun s => s)
        (fun text => if mentions "Broken" text then None else Some text)
        (fun dir file => dir ++ "/" ++ file)%string
        (fun _ _ => false)
        (fun _ _ _ => false).

Definition services : list ServiceData :=
  [ mkServiceData "api" "Echo" [mkMethod "Say" "Msg" "Reply"];
    mkServiceData "api" "Broken" [];
    mkServiceData "api" "Later" [] ].

End Examples.

(** ** The rest of the program *)

(** The function literal [main] passes to [parser.ParseDir]: which files of
    the directory are parsed, by their name. *)
Definition sourceFilter (name : string) : bool :=
  strings.HasSuffix name ".go"
  && negb (strings.HasSuffix name "_test.go")
  && negb (strings.HasSuffix name "_gen.go").

(** The earlier revision of [extractMethods] (the first [package main] of
    main.go): no validator; the request type is read off the first
    parameter and the response type off the second. *)
Module Rev1.

Definition extractMethod (method : ast.Field) : result (option Method) :=
  match ast.Type_ method with
  | ast.FuncTypeExpr funcType =>
      methodName <- index (ast.Names method) 0 ;;
      (* Extract request and response types from parameters *)
      params <- deref (ast.Params funcType) ;;
      if (2 <=? List.length params)%nat then
        p0 <- index params 0 ;;
        let requestType := extractTypeName (ast.Type_ p0) in
        p1 <- index params 1 ;;
        let responseType := extractTypeName (ast.Type_ p1) in
        (* Remove pointer prefix from response type *)
        let responseType := strings.TrimPrefix responseType "*" in
        Ok (Some (mkMethod methodName requestType responseType))
      else Ok None
  | _ => Ok None
  end.

Fixpoint extractMethodsFrom (fields : list ast.Field) (methods : list Method)
    : result (list Method) :=
  match fields with
  | [] => Ok methods
  | method :: rest =>
      m <- extractMethod method ;;
      extractMethodsFrom rest
        (match m with
         | Some m' => methods ++ [m']
         | None => methods
         end)
  end.

Definition extractMethods (interfaceType : ast.InterfaceType)
    : result (list Method) :=
  extractMethodsFrom (ast.Methods interfaceType) [].

End Rev1.

(** ** Vocabulary of the further properties *)

Module Behaviour.

(** The entry has a function type. *)
Definition isFunctionEntry (f : ast.Field) : bool :=
  match ast.Type_ f with
  | ast.FuncTypeExpr _ => true
  | _ => false
  end.

(** The method record of an entry the validator accepts: its first name,
    the identifier of the second parameter, the type name of what the first
    result points to.  No record for any other entry. *)
Definition recordOf (f : ast.Field) : list Method :=
  match ast.Type_ f, ast.Names f with
  | ast.FuncTypeExpr ft, name :: _ =>
      if Spec.entryShape ft then
        match ast.Params ft, ast.Results ft with
        | Some [_; p1], Some [r0; _] =>
            match ast.Type_ p1, ast.Type_ r0 with
            | ast.Ident req, ast.StarExpr x =>
                [mkMethod name req (extractTypeName x)]
            | _, _ => []
            end
        | _, _ => []
        end
      else []
  | _, _ => []
  end.

Definition recordsOf (l : list ast.Field) : list Method :=
  flat_map recordOf l.

(** The service description of an interface declaration. *)
Definition describe (d : Spec.Found) : ServiceData :=
  mkServiceData (Spec.inPackage d) (Spec.declName d)
    (recordsOf (ast.Methods (Spec.declType d))).

(** The identifiers [extractTypeName] reaches hold no line feed. *)
Fixpoint cleanType (e : ast.Expr) : bool :=
  match e with
  | ast.Ident n => Spec.singleLine n
  | ast.StarExpr x => cleanType x
  | _ => true
  end.

Definition cleanFields (l : option (list ast.Field)) : bool :=
  match l with
  | Some fs => forallb (fun f => cleanType (ast.Type_ f)) fs
  | None => true
  end.

Definition cleanEntry (f : ast.Field) : bool :=
  forallb Spec.singleLine (ast.Names f)
  && match ast.Type_ f with
     | ast.FuncTypeExpr ft =>
         cleanFields (ast.Params ft) && cleanFields (ast.Results ft)
     | _ => true
     end.

Definition cleanFound (d : Spec.Found) : bool :=
  Spec.singleLine (Spec.inPackage d) && Spec.singleLine (Spec.declName d)
  && forallb cleanEntry (ast.Methods (Spec.declType d)).

(** The head of the call-wrapping method of [m], and of the close method. *)
Definition wrapperHead (serviceName : string) (m : Method) : string :=
  "func (c *" ++ serviceName ++ "Client) " ++ Name m ++ "(request "
  ++ RequestType m ++ ") (" ++ "*" ++ ResponseType m ++ ", error) {".

Definition closeHead (serviceName : string) : string :=
  "func (c *" ++ serviceName ++ "Client) Close() error {".

(** The record of the earlier revision for an entry. *)
Definition recordOfRev1 (f : ast.Field) : list Method :=
  match ast.Type_ f, ast.Names f with
  | ast.FuncTypeExpr ft, name :: _ =>
      match ast.Params ft with
      | Some (p0 :: p1 :: _) =>
          [mkMethod name (extractTypeName (ast.Type_ p0))
             (strings.TrimPrefix (extractTypeName (ast.Type_ p1)) "*")]
      | _ => []
      end
  | _, _ => []
  end.

(** What the earlier revision needs of an entry not to panic: a function
    type comes with a name and a parameter list. *)
Definition entryRev1 (f : ast.Field) : bool :=
  match ast.Type_ f with
  | ast.FuncTypeExpr ft =>
      negb (Nat.eqb (List.length (ast.Names f)) 0)
      && match ast.Params ft with Some _ => true | None => false end
  | _ => true
  end.

(** Two services of one run whose names differ by case only. *)
Definition sameFile : list ServiceData :=
  [ mkServiceData "api" "Echo" [mkMethod "Say" "Msg" "Reply"];
    mkServiceData "api" "ECHO" [] ].

End Behaviour.

(** * Properties *)

(** ** Strings *)

Lemma append_assoc (a b c : string) : ((a ++ b) ++ c = a ++ (b ++ c))%string.
Proof.
  induction a as [| x a IH]; simpl; [reflexivity | now rewrite IH].
Qed.

Lemma append_empty_r (a : string) : (a ++ "" = a)%string.
Proof.
  induction a as [| x a IH]; simpl; [reflexivity | now rewrite IH].
Qed.

(** The only way to split [context.Context] around a dot. *)
Lemma qualified_context (pkg sel : string) :
  (pkg ++ "." ++ sel =? "context.Context")%string = true <->
  pkg = "context" /\ sel = "Context".
Proof.
  rewrite String.eqb_eq. split.
  - intros H.
    repeat (destruct pkg as [| c pkg]; simpl in H;
            [ first [ discriminate H | injection H as H; subst sel; now split ]
            | first [ discriminate H | injection H as Hc H; subst c ] ]).
  - intros [-> ->]. reflexivity.
Qed.

Lemma callContext_eqb (pkg sel : string) :
  (pkg ++ String "." sel =? "context.Context")%string
  = ((pkg =? "context")%string && (sel =? "Context")%string).
Proof.
  change (String "." sel) with ("." ++ sel)%string.
  destruct (pkg ++ "." ++ sel =? "context.Context")%string eqn:E.
  - apply qualified_context in E as [-> ->]. reflexivity.
  - symmetry. apply not_true_is_false. intros H.
    apply andb_true_iff in H as [H1 H2].
    apply String.eqb_eq in H1, H2. subst. discriminate E.
Qed.

(** ** The validator *)

Section Validator.

Variables fileName serviceName methodName : string.

Let validate := validateMethodSignature fileName serviceName methodName.

(** The validator returns [true] exactly on the entry shape. *)
Lemma validate_valid_iff (ft : ast.FuncType) :
  validate (Some ft) = Ok Valid <-> Spec.entryShape ft = true.
Proof.
  unfold validate, validateMethodSignature, Spec.entryShape.
  destruct ft as [[[| [n0 t0] [| [n1 t1] [| p2 ps]]] |]
                  [[| [m0 u0] [| [m1 u1] [| r2 rs]]] |]]; simpl;
    try (split; discriminate);
    (destruct t0 as [  | ? | ? | ? | ? | x sel | ? ? | ? | ? ? | ? | ? | ? | ? ? | ? | ? ? | ? ]; simpl; try (split; discriminate);
     destruct x as [  | pkg | ? | ? | ? | ? ? | ? ? | ? | ? ? | ? | ? | ? | ? ? | ? | ? ? | ? ]; simpl; try (split; discriminate);
     rewrite callContext_eqb;
     destruct ((pkg =? "context")%string && (sel =? "Context")%string);
     simpl; try (split; discriminate);
     destruct t1 as [  | req | ? | ? | ? | ? ? | ? ? | ? | ? ? | ? | ? | ? | ? ? | ? | ? ? | ? ]; simpl; try (split; discriminate)).
  destruct u0 as [  | ? | ? | ? | ? | ? ? | ? ? | resp | ? ? | ? | ? | ? | ? ? | ? | ? ? | ? ]; simpl; try (split; discriminate).
  destruct u1 as [  | err | ? | ? | ? | ? ? | ? ? | ? | ? ? | ? | ? | ? | ? ? | ? | ? ? | ? ]; simpl; try (split; discriminate).
  destruct (err =? "error")%string; simpl; split; congruence.
Qed.

(** It panics exactly on a nested qualifier, with a failed type
    assertion. *)
Lemma validate_panic_iff (ft : ast.FuncType) (p : PanicKind) :
  validate (Some ft) = Panic p <->
  Spec.nestedQualifier ft = true /\ p = TypeAssertionFailed.
Proof.
  unfold validate, validateMethodSignature, Spec.nestedQualifier.
  destruct ft as [[[| [n0 t0] [| [n1 t1] [| p2 ps]]] |] rs]; simpl;
    try (split; [discriminate | intros [? _]; discriminate]).
  destruct t0 as [  | ? | ? | ? | ? | x sel | ? ? | ? | ? ? | ? | ? | ? | ? ? | ? | ? ? | ? ]; simpl;
    try (split; [discriminate | intros [? _]; discriminate]).
  destruct x as [  | pkg | ? | ? | ? | ? ? | ? ? | ? | ? ? | ? | ? | ? | ? ? | ? | ? ? | ? ]; simpl;
    try (split; [intros [= <-]; auto | intros [_ ->]; reflexivity]).
  split; [| intros [? _]; discriminate].
  destruct (negb _); [discriminate |].
  destruct t1 as [  | req | ? | ? | ? | ? ? | ? ? | ? | ? ? | ? | ? | ? | ? ? | ? | ? ? | ? ]; simpl; try discriminate.
  destruct rs as [[| [m0 u0] [| [m1 u1] [| r2 rs]]] |]; simpl;
    try discriminate.
  destruct u0 as [  | ? | ? | ? | ? | ? ? | ? ? | resp | ? ? | ? | ? | ? | ? ? | ? | ? ? | ? ]; simpl; try discriminate.
  destruct u1 as [  | err | ? | ? | ? | ? ? | ? ? | ? | ? ? | ? | ? | ? | ? ? | ? | ? ? | ? ]; simpl; try discriminate.
  destruct (negb _); discriminate.
Qed.

(** Everywhere else it returns. *)
Lemma validate_returns (ft : ast.FuncType) :
  Spec.nestedQualifier ft = false -> exists v, validate (Some ft) = Ok v.
Proof.
  intros H. destruct (validate (Some ft)) as [v | p] eqn:E; [eauto |].
  apply validate_panic_iff in E as [E _]. congruence.
Qed.

(** So it rejects, by returning false, every declaration off the entry
    shape that has no nested qualifier. *)
Lemma validate_rejects (ft : ast.FuncType) :
  Spec.nestedQualifier ft = false ->
  Spec.entryShape ft = false ->
  exists d, validate (Some ft) = Ok (Invalid d).
Proof.
  intros Hq Hs. destruct (validate_returns ft Hq) as [[| d] Hv]; [| eauto].
  apply validate_valid_iff in Hv. congruence.
Qed.

End Validator.

(** ** C1: what the validator accepts *)

(** C1, as stated, fails: the validator returns true on a method whose first
    result is a pointer to a slice type, which is no pointer to a named
    type. *)
Lemma C1_pointer_to_slice_accepted :
  validateMethodSignature "svc.go" "Store" "List" (Some Examples.listItems)
  = Ok Valid
  /\ Spec.requiredShape Examples.listItems = false.
Proof. split; reflexivity. Qed.

Lemma declared_ungrouped (l : list ast.Field) :
  Spec.oneNameEach (Some l) = true ->
  Spec.declared (Some l) = map ast.Type_ l.
Proof.
  simpl. induction l as [| [ns t] l IH]; simpl; [reflexivity |].
  intros H. apply andb_true_iff in H as [Hn Hl].
  rewrite (IH Hl).
  destruct ns as [| n [| n' ns]]; simpl in *; try reflexivity; discriminate.
Qed.

Lemma pointerShape_entryShape (ft : ast.FuncType) :
  Spec.ungrouped ft = true -> Spec.pointerShape ft = Spec.entryShape ft.
Proof.
  unfold Spec.ungrouped, Spec.pointerShape, Spec.entryShape.
  intros H. apply andb_true_iff in H as [Hp Hr].
  destruct ft as [ps rs]; simpl in *.
  assert (Dp : Spec.declared ps = match ps with Some l => map ast.Type_ l | None => [] end)
    by (destruct ps; [now apply declared_ungrouped | reflexivity]).
  assert (Dr : Spec.declared rs = match rs with Some l => map ast.Type_ l | None => [] end)
    by (destruct rs; [now apply declared_ungrouped | reflexivity]).
  rewrite Dp, Dr.
  destruct ps as [[| p0 [| p1 [| p2 ps]]] |]; simpl; try reflexivity;
    destruct rs as [[| r0 [| r1 [| r2 rs]]] |]; simpl; reflexivity.
Qed.

(** C1, amended: for a method declaration in which no entry of the parameter
    or result list declares several names, the validator returns true if
    and only if there are exactly two parameters, the first a qualified
    reference named context.Context, the second a plain named type, and
    exactly two results, the first a pointer (to any type expression), the
    second the identifier error. *)
Theorem C1_validate_iff_pointer_shape
    (fileName serviceName methodName : string) (ft : ast.FuncType) :
  Spec.ungrouped ft = true ->
  (validateMethodSignature fileName serviceName methodName (Some ft) = Ok Valid
   <-> Spec.pointerShape ft = true).
Proof.
  intros H. rewrite (pointerShape_entryShape ft H).
  apply validate_valid_iff.
Qed.

Lemma C1_validate_iff_pointer_shape_witness :
  Spec.ungrouped Examples.say = true
  /\ (validateMethodSignature "echo.go" "Echo" "Say" (Some Examples.say) = Ok Valid
      <-> Spec.pointerShape Examples.say = true).
Proof.
  split; [reflexivity |].
  apply (C1_validate_iff_pointer_shape "echo.go" "Echo" "Say" Examples.say).
  reflexivity.
Defined.

(** ** C2: rejection without panic *)

(** C2 does not hold of the code.  On the declaration whose first parameter
    has type a.b.Context the validator panics at the unchecked type
    assertion on the operand of the selector; and the declaration with
    three parameters in two entries, which violates the required shape, is
    accepted. *)
Theorem C2_validator_panics_and_accepts :
  validateMethodSignature "echo.go" "Echo" "Say" (Some Examples.sayNested)
  = Panic TypeAssertionFailed
  /\ Spec.requiredShape Examples.sayNested = false
  /\ validateMethodSignature "store.go" "Store" "Put" (Some Examples.putGrouped)
     = Ok Valid
  /\ ast.NumFields (ast.Params Examples.putGrouped) = 3
  /\ Spec.requiredShape Examples.putGrouped = false.
Proof. repeat split; reflexivity. Qed.

(** The loop of [extractMethods] has one more unchecked access: on an
    entry of function type without a name (the type element of
    [interface{ func() }]) the index [method.Names[0]] is out of range. *)
Example unnamed_function_element_panics :
  extractMethods "c.go" "C"
    (ast.mkInterfaceType
       [ast.mkField [] (ast.FuncTypeExpr (ast.mkFuncType (Some []) None))])
  = Panic IndexOutOfRange.
Proof. reflexivity. Qed.

(** ** C3, C10: the method record of an accepted method *)

(** What the loop body does on an accepted method. *)
Lemma extractMethod_accepted (fileName serviceName : string)
    (method : ast.Field) (ft : ast.FuncType) (name : string)
    (rest : list string) :
  ast.Type_ method = ast.FuncTypeExpr ft ->
  ast.Names method = name :: rest ->
  validateMethodSignature fileName serviceName name (Some ft) = Ok Valid ->
  exists p0 p1 r0 r1 req x,
    ast.Params ft = Some [p0; p1] /\ ast.Type_ p1 = ast.Ident req
    /\ ast.Results ft = Some [r0; r1] /\ ast.Type_ r0 = ast.StarExpr x
    /\ extractMethod fileName serviceName method
       = Ok (Some (mkMethod name req (extractTypeName x))).
Proof.
  intros Ht Hn Hv.
  pose proof (proj1 (validate_valid_iff _ _ _ _) Hv) as Hs.
  unfold Spec.entryShape in Hs.
  destruct ft as [[[| p0 [| p1 [| p2 ps]]] |]
                  [[| r0 [| r1 [| r2 rs]]] |]]; simpl in Hs;
    try discriminate Hs.
  apply andb_true_iff in Hs as [Hs He].
  apply andb_true_iff in Hs as [Hs Hr].
  apply andb_true_iff in Hs as [Hc Hp].
  destruct p1 as [n1 t1], r0 as [m0 u0]; simpl in Hp, Hr.
  destruct t1; try discriminate Hp.
  destruct u0; try discriminate Hr.
  do 6 eexists. repeat split; try reflexivity.
  unfold extractMethod. rewrite Ht, Hn.
  cbn [index nth_error bind]. rewrite Hv. reflexivity.
Qed.

(** C3, as stated, fails: for a first result that is a pointer to a pointer
    to Reply the response type name keeps one marker; it is not the bare
    declared name. *)
Lemma C3_double_pointer_keeps_marker :
  extractMethod "store.go" "Store" (Examples.method "Get" Examples.getTwice)
  = Ok (Some (mkMethod "Get" "Key" "*Reply"))
  /\ Spec.bareName
       (extractTypeName (ast.StarExpr (ast.StarExpr (ast.Ident "Reply"))))
     = "Reply"
  /\ "*Reply" <> "Reply".
Proof. repeat split; try reflexivity. discriminate. Qed.

(** C3, amended: for every accepted method the response type name is the
    type name of what the first result points to, that is the name of the
    first result with exactly one leading pointer marker removed (the bare
    declared name when the result points to a simple identifier), and the
    request type name is the identifier of the second parameter,
    unchanged. *)
Theorem C3_method_record (fileName serviceName : string)
    (method : ast.Field) (ft : ast.FuncType) (name : string)
    (rest : list string) :
  ast.Type_ method = ast.FuncTypeExpr ft ->
  ast.Names method = name :: rest ->
  validateMethodSignature fileName serviceName name (Some ft) = Ok Valid ->
  exists p0 p1 r0 r1 req x,
    ast.Params ft = Some [p0; p1] /\ ast.Type_ p1 = ast.Ident req
    /\ ast.Results ft = Some [r0; r1] /\ ast.Type_ r0 = ast.StarExpr x
    /\ extractMethod fileName serviceName method
       = Ok (Some (mkMethod name req (extractTypeName x)))
    /\ extractTypeName (ast.Type_ r0) = ("*" ++ extractTypeName x)%string
    /\ (forall resp, x = ast.Ident resp -> extractTypeName x = resp).
Proof.
  intros Ht Hn Hv.
  destruct (extractMethod_accepted fileName serviceName method ft name rest Ht Hn Hv)
    as (p0 & p1 & r0 & r1 & req & x & Hp & Hp1 & Hr & Hr0 & He).
  exists p0, p1, r0, r1, req, x. repeat split; try assumption.
  - rewrite Hr0. reflexivity.
  - intros resp ->. reflexivity.
Qed.

Lemma C3_method_record_witness :
  exists p0 p1 r0 r1 req x,
    ast.Params Examples.say = Some [p0; p1] /\ ast.Type_ p1 = ast.Ident req
    /\ ast.Results Examples.say = Some [r0; r1] /\ ast.Type_ r0 = ast.StarExpr x
    /\ extractMethod "echo.go" "Echo" (Examples.method "Say" Examples.say)
       = Ok (Some (mkMethod "Say" req (extractTypeName x)))
    /\ extractTypeName (ast.Type_ r0) = ("*" ++ extractTypeName x)%string
    /\ (forall resp, x = ast.Ident resp -> extractTypeName x = resp).
Proof.
  apply (@C3_method_record "echo.go" "Echo" (Examples.method "Say" Examples.say)
           Examples.say "Say" []); reflexivity.
Defined.

(** C10, as stated, fails: the first result of this accepted method is a
    pointer to a type that is no identifier (it is a pointer to Reply), and
    the response type name is not unknown. *)
Lemma C10_pointer_to_pointer_not_unknown :
  validateMethodSignature "store.go" "Store" "Get" (Some Examples.getTwice)
  = Ok Valid
  /\ Spec.isPlainNamed (ast.StarExpr (ast.Ident "Reply")) = false
  /\ extractMethod "store.go" "Store" (Examples.method "Get" Examples.getTwice)
     = Ok (Some (mkMethod "Get" "Key" "*Reply"))
  /\ "*Reply" <> "unknown".
Proof. repeat split; try reflexivity. discriminate. Qed.

(** C10, amended: extractTypeName returns a string on every expression, and
    the literal unknown on every expression that is neither an identifier
    nor a pointer; so an accepted method whose first result is a pointer to
    a type expression that is neither an identifier nor itself a pointer
    gets the response type name unknown. *)
Theorem C10_unknown_response (x : ast.Expr) :
  Spec.isPlainNamed x = false ->
  Spec.isPointer x = false ->
  extractTypeName x = "unknown"
  /\ forall fileName serviceName method ft name rest r0 r1,
       ast.Type_ method = ast.FuncTypeExpr ft ->
       ast.Names method = name :: rest ->
       validateMethodSignature fileName serviceName name (Some ft) = Ok Valid ->
       ast.Results ft = Some [r0; r1] ->
       ast.Type_ r0 = ast.StarExpr x ->
       exists m, extractMethod fileName serviceName method = Ok (Some m)
                 /\ Name m = name /\ ResponseType m = "unknown".
Proof.
  intros Hi Hp.
  assert (Hu : extractTypeName x = "unknown")
    by (destruct x; simpl in *; try reflexivity; discriminate).
  split; [exact Hu |].
  intros fileName serviceName method ft name rest r0 r1 Ht Hn Hv Hr Hr0.
  destruct (extractMethod_accepted fileName serviceName method ft name rest Ht Hn Hv)
    as (p0 & p1 & r0' & r1' & req & x' & _ & _ & Hr' & Hr0' & He).
  rewrite Hr in Hr'. injection Hr' as <- <-.
  rewrite Hr0 in Hr0'. injection Hr0' as <-.
  rewrite Hu in He. eexists. split; [exact He |]. split; reflexivity.
Qed.

Lemma C10_unknown_response_witness :
  extractTypeName (ast.ArrayType None (ast.Ident "Item")) = "unknown"
  /\ exists m,
       extractMethod "store.go" "Store" (Examples.method "List" Examples.listItems)
       = Ok (Some m)
       /\ Name m = "List" /\ ResponseType m = "unknown".
Proof.
  destruct (@C10_unknown_response (ast.ArrayType None (ast.Ident "Item"))
              eq_refl eq_refl) as [Hu Hm].
  split; [exact Hu |].
  apply (Hm "store.go" "Store" (Examples.method "List" Examples.listItems)
            Examples.listItems "List" []
            (ast.mkField [] (ast.StarExpr (ast.ArrayType None (ast.Ident "Item"))))
            (ast.mkField [] Examples.errorType)); reflexivity.
Defined.

(** ** C6: the names in a service description *)

Lemma methodNames_cons (m : ast.Field) (l : list ast.Field) :
  Spec.methodNames (m :: l) = Spec.nameOf m ++ Spec.methodNames l.
Proof. reflexivity. Qed.

Lemma acceptedNames_single (m : ast.Field) :
  Spec.acceptedNames [m] = if Spec.acceptedEntry m then Spec.nameOf m else [].
Proof.
  unfold Spec.acceptedNames, Spec.methodNames. simpl.
  destruct (Spec.acceptedEntry m); simpl; [apply app_nil_r | reflexivity].
Qed.

Lemma extractMethod_names (fileName serviceName : string) (m : ast.Field)
    (r : option Method) :
  extractMethod fileName serviceName m = Ok r ->
  match r with Some x => [Name x] | None => [] end
  = Spec.acceptedNames [m].
Proof.
  rewrite acceptedNames_single.
  unfold Spec.acceptedEntry, Spec.nameOf, Spec.declaredName.
  destruct (ast.Type_ m) eqn:Ht;
    try (unfold extractMethod; rewrite Ht; intros [= <-]; reflexivity).
  destruct (ast.Names m) as [| name rest] eqn:Hn.
  { unfold extractMethod. rewrite Ht, Hn. discriminate. }
  destruct (validateMethodSignature fileName serviceName name (Some f))
    as [[| d] | p] eqn:Hv.
  - destruct (extractMethod_accepted fileName serviceName m f name rest Ht Hn Hv)
      as (_ & _ & _ & _ & req & x & _ & _ & _ & _ & He).
    rewrite He. intros [= <-].
    rewrite (proj1 (validate_valid_iff _ _ _ _) Hv). reflexivity.
  - unfold extractMethod. rewrite Ht, Hn. cbn [index nth_error bind].
    rewrite Hv. simpl. intros [= <-].
    destruct (Spec.entryShape f) eqn:Hs; [| reflexivity].
    apply (validate_valid_iff fileName serviceName name) in Hs. congruence.
  - unfold extractMethod. rewrite Ht, Hn. cbn [index nth_error bind].
    rewrite Hv. discriminate.
Qed.

Lemma acceptedNames_cons (m : ast.Field) (l : list ast.Field) :
  Spec.acceptedNames (m :: l) = Spec.acceptedNames [m] ++ Spec.acceptedNames l.
Proof.
  unfold Spec.acceptedNames, Spec.methodNames. simpl.
  destruct (Spec.acceptedEntry m); simpl; [| reflexivity].
  now rewrite app_nil_r.
Qed.

Lemma extractMethodsFrom_names (fileName serviceName : string)
    (l : list ast.Field) :
  forall acc ms,
    extractMethodsFrom fileName serviceName l acc = Ok ms ->
    map Name ms = map Name acc ++ Spec.acceptedNames l.
Proof.
  induction l as [| m l IH]; intros acc ms.
  - simpl. intros [= <-]. now rewrite app_nil_r.
  - cbn [extractMethodsFrom].
    destruct (extractMethod fileName serviceName m) as [r | p] eqn:Hm;
      [| discriminate].
    cbn [bind]. intros H. apply IH in H. rewrite H.
    rewrite acceptedNames_cons, <- (extractMethod_names _ _ _ _ Hm).
    destruct r; [| reflexivity].
    rewrite map_app, <- app_assoc. reflexivity.
Qed.

Lemma acceptedNames_incl (l : list ast.Field) (n : string) :
  In n (Spec.acceptedNames l) -> In n (Spec.methodNames l).
Proof.
  unfold Spec.acceptedNames, Spec.methodNames.
  rewrite !in_flat_map. intros (f & Hf & Hn).
  apply filter_In in Hf as [Hf _]. eauto.
Qed.

Lemma acceptedNames_NoDup (l : list ast.Field) :
  NoDup (Spec.methodNames l) -> NoDup (Spec.acceptedNames l).
Proof.
  induction l as [| m l IH]; [intros _; constructor |].
  rewrite acceptedNames_cons, methodNames_cons, acceptedNames_single.
  unfold Spec.nameOf.
  destruct (Spec.declaredName m) as [n |], (Spec.acceptedEntry m);
    cbn [app]; try exact IH.
  - intros H. inversion H as [| ? ? Hn Hl]; subst.
    constructor; [| now apply IH].
    intros Hin. apply Hn. now apply acceptedNames_incl.
  - intros H. apply IH. now inversion H.
Qed.

(** C6, as stated, fails: an interface that declares Say twice yields two
    methods named Say. *)
Lemma C6_duplicate_names_kept :
  exists ms,
    extractMethods "echo.go" "Echo" Examples.twice = Ok ms
    /\ map Name ms = ["Say"; "Say"]
    /\ ~ NoDup (map Name ms).
Proof.
  eexists. split; [reflexivity |]. split; [reflexivity |].
  intros H. inversion H as [| ? ? Hn _]. apply Hn. now left.
Qed.

(** C6, amended: in every service description produced by extraction the
    method names are the names of the accepted method declarations, in
    declaration order, whether or not the declared names are unique; they
    are unique whenever the names the interface declares are unique.
    Extraction removes no duplicate. *)
Theorem C6_names_of_accepted (fileName serviceName : string)
    (interfaceType : ast.InterfaceType) (ms : list Method) :
  extractMethods fileName serviceName interfaceType = Ok ms ->
  map Name ms = Spec.acceptedNames (ast.Methods interfaceType)
  /\ (NoDup (Spec.methodNames (ast.Methods interfaceType)) ->
      NoDup (map Name ms)).
Proof.
  intros He. apply extractMethodsFrom_names in He. simpl in He.
  split; [exact He |]. rewrite He. apply acceptedNames_NoDup.
Qed.

Lemma C6_names_of_accepted_witness :
  map Name [mkMethod "Get" "Key" "*Reply"; mkMethod "Say" "Msg" "Reply"]
  = Spec.acceptedNames (ast.Methods Examples.mixed)
  /\ Spec.methodNames (ast.Methods Examples.mixed) = ["Get"; "Ping"; "Say"]
  /\ NoDup (map Name [mkMethod "Get" "Key" "*Reply";
                      mkMethod "Say" "Msg" "Reply"]).
Proof.
  destruct (@C6_names_of_accepted "store.go" "Store" Examples.mixed
              [mkMethod "Get" "Key" "*Reply"; mkMethod "Say" "Msg" "Reply"]
              eq_refl) as [Hnames Hunique].
  split; [exact Hnames |]. split; [reflexivity |].
  apply Hunique. repeat constructor; simpl; intuition discriminate.
Defined.

(** ** C8: the name of the output file *)

(** C8: the output file name is the lower-cased service name followed by
    _client_gen.go; the service UserService goes to
    userservice_client_gen.go. *)
Theorem C8_file_name (env : Env) (serviceData : ServiceData) :
  fileName env serviceData
  = (strings.ToLower (mapRunes env) (ServiceName serviceData)
     ++ "_client_gen.go")%string
  /\ forall packageName methods,
       fileName env (mkServiceData packageName "UserService" methods)
       = "userservice_client_gen.go".
Proof.
  split; [| reflexivity].
  unfold fileName, fmt.Sprintf. cbn [fmt.doPrintf]. reflexivity.
Qed.

(** ** C7, C9: the generation loop *)

Lemma Parse_clientTemplate :
  template.Parse clientTemplate = Some parsedClientTemplate.
Proof. vm_compute. reflexivity. Qed.

Section Generation.

Variable env : Env.
Variable temp : template.Template.

Lemma generateClientCode_render_error (serviceData : ServiceData) (fs : FS)
    (err : GenError) :
  formattedText env temp serviceData = inl err ->
  generateClientCode env temp serviceData fs = (fs, Some err).
Proof.
  intros H. unfold generateClientCode. rewrite H. reflexivity.
Qed.

Lemma generateAll_app_failure (pre post : list ServiceData)
    (serviceData : ServiceData) (err : GenError) :
  formattedText env temp serviceData = inl err ->
  forall fs fs',
    generateAll env temp pre fs = (Exit 0, fs') ->
    generateAll env temp (pre ++ serviceData :: post) fs = (Exit 1, fs').
Proof.
  intros Herr. induction pre as [| s pre IH]; intros fs fs' Hpre.
  - simpl in Hpre. injection Hpre as <-. simpl.
    now rewrite (generateClientCode_render_error serviceData fs err Herr).
  - simpl in *.
    destruct (generateClientCode env temp s fs) as [fs1 [e |]];
      [discriminate Hpre | now apply IH].
Qed.

Lemma generateClientCode_written (serviceData : ServiceData) (fs out : FS) :
  generateClientCode env temp serviceData fs = (out, None) ->
  exists text,
    formattedText env temp serviceData = inr text
    /\ readFile (filePath env serviceData) out = Some text.
Proof.
  unfold generateClientCode.
  destruct (formattedText env temp serviceData) as [e | text];
    [discriminate |].
  destruct (createFails env fs _); [discriminate |].
  destruct (writeFails env _ _ _); [discriminate |].
  intros [= <-]. exists text. split; [reflexivity |].
  simpl. now rewrite String.eqb_refl.
Qed.

End Generation.

(** C7: when rendering (template expansion or import normalisation) fails
    for a service, the loop stops there with exit status 1, and the file
    system is the one the services before it left: nothing is written for
    that service or for a later one.  The same holds of [main]. *)
Theorem C7_halts_at_first_render_failure (env : Env)
    (temp : template.Template) (pre post : list ServiceData)
    (serviceData : ServiceData) (err : GenError) (fs fs' : FS) :
  generateAll env temp pre fs = (Exit 0, fs') ->
  formattedText env temp serviceData = inl err ->
  generateAll env temp (pre ++ serviceData :: post) fs = (Exit 1, fs')
  /\ forall pkgs,
       scan pkgs = Ok (pre ++ serviceData :: post) ->
       temp = parsedClientTemplate ->
       main env (Some pkgs) fs = (Exit 1, fs').
Proof.
  intros Hpre Herr.
  assert (H : generateAll env temp (pre ++ serviceData :: post) fs = (Exit 1, fs'))
    by (now apply generateAll_app_failure with (err := err)).
  split; [exact H |].
  intros pkgs Hscan ->. unfold main.
  now rewrite Hscan, Parse_clientTemplate.
Qed.

Lemma C7_halts_at_first_render_failure_witness :
  let pre := [mkServiceData "api" "Echo" [mkMethod "Say" "Msg" "Reply"]] in
  let fs' := snd (generateAll Examples.sampleEnv parsedClientTemplate pre []) in
  generateAll Examples.sampleEnv parsedClientTemplate Examples.services []
  = (Exit 1, fs')
  /\ readFile "out/echo_client_gen.go" fs' <> None
  /\ readFile "out/broken_client_gen.go" fs' = None
  /\ readFile "out/later_client_gen.go" fs' = None.
Proof.
  intros pre fs'.
  split; [| split; [vm_compute; discriminate | split; reflexivity]].
  apply (@C7_halts_at_first_render_failure Examples.sampleEnv
           parsedClientTemplate pre [mkServiceData "api" "Later" []]
           (mkServiceData "api" "Broken" []) ErrImports [] fs').
  - reflexivity.
  - reflexivity.
Defined.

(** ** C4, C9: the expansion of the client template *)

Lemma writeAll_map {A B : Type} (f : B -> template.Exec string) (g : A -> B)
    (h : A -> string) (l : list A) :
  (forall x, f (g x) = template.Done (h x)) ->
  template.writeAll f (map g l) = template.Done (concatStrings (map h l)).
Proof.
  intros H. induction l as [| x l IH]; simpl; [reflexivity |].
  now rewrite H, IH.
Qed.

Lemma lines_cons (s : string) :
  exists l rest, Spec.lines s = l :: rest.
Proof.
  induction s as [| c s (l & rest & IH)]; simpl; [eauto |].
  destruct (c =? nl)%char; [eauto |]. rewrite IH. simpl. eauto.
Qed.

Lemma lines_single (x r : string) :
  Spec.singleLine x = true ->
  Spec.lines (x ++ r) = Spec.prependString x (Spec.lines r).
Proof.
  destruct (lines_cons r) as (l & rest & Hr).
  induction x as [| c x IH]; simpl.
  - intros _. now rewrite Hr.
  - intros H. apply andb_true_iff in H as [Hc Hx].
    apply negb_true_iff in Hc. rewrite Hc, (IH Hx), Hr. reflexivity.
Qed.

Lemma lines_singleLine (x : string) :
  Spec.singleLine x = true -> Spec.lines x = [x].
Proof.
  intros H. rewrite <- (append_empty_r x) at 1.
  rewrite (lines_single x "" H). simpl. now rewrite append_empty_r.
Qed.

Lemma prepend_joinOnto (c : ascii) (l : string) (a r : list string) :
  Spec.prepend c (Spec.joinOnto (l :: a) r)
  = Spec.joinOnto (String c l :: a) r.
Proof.
  destruct a as [| l' a]; simpl; [| reflexivity].
  destruct r; reflexivity.
Qed.

Lemma lines_app (a r : string) :
  Spec.lines (a ++ r) = Spec.joinOnto (Spec.lines a) (Spec.lines r).
Proof.
  destruct (lines_cons r) as (l & rest & Hr).
  induction a as [| c a IH]; simpl.
  - now rewrite Hr.
  - destruct (c =? nl)%char.
    + rewrite IH. destruct (lines_cons a) as (l' & rest' & ->). reflexivity.
    + rewrite IH. destruct (lines_cons a) as (l' & rest' & ->).
      now rewrite !prepend_joinOnto.
Qed.

Lemma lines_blocks (ok : Method -> bool) (block : Method -> string)
    (blockLines : Method -> list string) (ms : list Method) (r : string) :
  (forall m r', ok m = true ->
                Spec.lines (block m ++ r') = blockLines m ++ Spec.lines r') ->
  forallb ok ms = true ->
  Spec.lines (concatStrings (map block ms) ++ r)
  = flat_map blockLines ms ++ Spec.lines r.
Proof.
  intros H. induction ms as [| m ms IH]; simpl; [reflexivity |].
  intros Hok. apply andb_true_iff in Hok as [Hm Hok].
  now rewrite append_assoc, (H _ _ Hm), (IH Hok), app_assoc.
Qed.

Lemma writeAll_cons {A : Type} (f : A -> template.Exec string) (x : A)
    (l : list A) (s t : string) :
  f x = template.Done s ->
  template.writeAll f l = template.Done t ->
  template.writeAll f (x :: l) = template.Done (s ++ t)%string.
Proof. intros Hx Hl. simpl. now rewrite Hx, Hl. Qed.

Lemma walk_range (root dot : template.Value) (p : template.Pipe)
    (body : list template.Node) (items : list template.Value) :
  template.evalPipe root dot p = template.Done (template.VSlice items) ->
  template.walk root dot (template.RangeNode p body)
  = template.writeAll
      (fun elem => template.writeAll (template.walk root elem) body) items.
Proof. intros H. simpl. now rewrite H. Qed.

Ltac expand_template_inner :=
  repeat lazymatch goal with
  | |- template.writeAll _ (_ :: _) = _ =>
      eapply writeAll_cons; [ reflexivity | ]
  | |- template.writeAll _ [] = _ => reflexivity
  end.

Ltac expand_template :=
  repeat lazymatch goal with
  | |- template.writeAll _ (template.RangeNode _ _ :: _) = _ =>
      eapply writeAll_cons;
      [ erewrite walk_range by reflexivity;
        eapply writeAll_map; intros ?; expand_template_inner | ]
  | |- template.writeAll _ (_ :: _) = _ =>
      eapply writeAll_cons; [ reflexivity | ]
  | |- template.writeAll _ [] = _ => reflexivity
  end.


Lemma prependString_lines (r : string) :
  Spec.prependString "" (Spec.lines r) = Spec.lines r.
Proof. destruct (lines_cons r) as (l & rest & ->). reflexivity. Qed.

Ltac lines_of_names :=
  repeat match goal with
         | H : Spec.singleLine ?x = true |- _ =>
             rewrite !(lines_singleLine x H)
         end.

Ltac read_lines :=
  cbn [PackageName ServiceName Methods];
  rewrite ?append_assoc;
  repeat lazymatch goal with
         | |- context [Spec.lines (concatStrings _ ++ _)] => fail
         | |- context [Spec.lines (_ ++ _)] => rewrite lines_app
         end.

Ltac finish_lines :=
  lines_of_names;
  cbn [Spec.lines Spec.prepend Spec.joinOnto Spec.prependString
       Ascii.eqb Bool.eqb andb nl];
  rewrite ?prependString_lines, ?append_empty_r.

Ltac read_blocks bl Hms :=
  erewrite lines_blocks with (ok := Spec.singleLineMethod) (blockLines := bl);
  [ | let m := fresh "m" in let r := fresh "r" in let Hm := fresh "Hm" in
      intros m r Hm; unfold Spec.singleLineMethod in Hm;
      apply andb_true_iff in Hm as [Hm ?]; apply andb_true_iff in Hm as [? ?];
      read_lines; finish_lines; reflexivity
    | exact Hms ].

(** The client template expands on every service description, and the lines
    of the text are the generated lines. *)
Lemma expansion_lines (sd : ServiceData) :
  Spec.singleLineNames sd = true ->
  exists text,
    template.Execute parsedClientTemplate (reflectServiceData sd)
    = template.Done text
    /\ Spec.lines text = Spec.generatedLines sd.
Proof.
  destruct sd as [pkg svc ms]. unfold Spec.singleLineNames. simpl.
  intros H. apply andb_true_iff in H as [H Hms].
  apply andb_true_iff in H as [Hpkg Hsvc].
  eexists. split.
  - unfold template.Execute, parsedClientTemplate, reflectServiceData.
    expand_template.
  - read_lines. finish_lines.
    read_blocks Spec.registrationLines Hms.
    read_lines. finish_lines.
    read_blocks (Spec.methodLines pkg svc) Hms.
    read_lines. finish_lines.
    reflexivity.
Qed.

Lemma filter_flat_map {A B : Type} (p : B -> bool) (f : A -> list B)
    (l : list A) :
  filter p (flat_map f l) = flat_map (fun x => filter p (f x)) l.
Proof.
  induction l as [| x l IH]; simpl; [reflexivity |].
  now rewrite filter_app, IH.
Qed.

Lemma flat_map_nil {A B : Type} (l : list A) :
  flat_map (fun _ : A => @nil B) l = [].
Proof. induction l; simpl; auto. Qed.

Lemma flat_map_single {A B : Type} (f : A -> B) (l : list A) :
  flat_map (fun x => [f x]) l = map f l.
Proof. induction l as [| x l IH]; simpl; [reflexivity | now rewrite IH]. Qed.

Lemma length_flat_map_pair {A B : Type} (f g : A -> B) (l : list A) :
  List.length (flat_map (fun x => [f x; g x]) l) = 2 * List.length l.
Proof. induction l as [| x l IH]; simpl; [reflexivity | rewrite IH; lia]. Qed.

Ltac filter_lines :=
  unfold Spec.generatedLines, Spec.headLines, Spec.clientLines,
    Spec.closeLines;
  rewrite !filter_app, !filter_flat_map;
  unfold Spec.registrationLines, Spec.methodLines, Spec.registration,
    Spec.remoteCall;
  cbn [PackageName ServiceName Methods];
  simpl;
  rewrite ?flat_map_nil, ?app_nil_r.

Ltac count_lines :=
  filter_lines;
  rewrite ?flat_map_single;
  repeat (rewrite ?length_app, ?length_map, ?length_flat_map_pair;
          cbn [List.length]);
  lia.

(** C4: the client template expands on a service description with N methods
    (names on one line each) to a text with exactly 2N registration
    statements, one pair per method in method order with the response type
    before the request type, exactly N remote calls, one per method in
    method order, N + 1 methods of the client type (the N call wrappers and
    the close method), exactly one constructor and exactly one close
    delegation; with the init function that makes N + 3 functions. *)
Theorem C4_rendered_counts (sd : ServiceData) :
  Spec.singleLineNames sd = true ->
  exists text,
    template.Execute parsedClientTemplate (reflectServiceData sd)
    = template.Done text
    /\ filter Spec.isRegistration (Spec.lines text)
       = flat_map (fun m => [Spec.registration (ResponseType m);
                             Spec.registration (RequestType m)])
                  (Methods sd)
    /\ Spec.count Spec.isRegistration text = 2 * List.length (Methods sd)
    /\ filter Spec.isRemoteCall (Spec.lines text)
       = map (fun m => Spec.remoteCall (ServiceName sd) (Name m)) (Methods sd)
    /\ Spec.count Spec.isRemoteCall text = List.length (Methods sd)
    /\ Spec.count Spec.isClientMethod text = List.length (Methods sd) + 1
    /\ Spec.count Spec.isConstructor text = 1
    /\ Spec.count Spec.isCloseDelegation text = 1
    /\ Spec.count Spec.isFunc text = List.length (Methods sd) + 3.
Proof.
  intros H.
  destruct (expansion_lines sd H) as (text & Hx & Hl).
  exists text. split; [exact Hx |].
  unfold Spec.count. rewrite Hl. clear Hl Hx H text.
  destruct sd as [pkg svc ms].
  unfold Spec.isRegistration, Spec.isRemoteCall, Spec.isClientMethod,
    Spec.isConstructor, Spec.isCloseDelegation, Spec.isFunc.
  repeat split.
  - filter_lines. reflexivity.
  - count_lines.
  - filter_lines. now rewrite flat_map_single.
  - count_lines.
  - count_lines.
  - count_lines.
  - count_lines.
  - count_lines.
Qed.

Lemma C4_rendered_counts_witness :
  exists text,
    template.Execute parsedClientTemplate
      (reflectServiceData Examples.threeMethods)
    = template.Done text
    /\ filter Spec.isRegistration (Spec.lines text)
       = [ "   gob.Register(Item{})"; "   gob.Register(Key{})";
           "   gob.Register(Ack{})"; "   gob.Register(Item{})";
           "   gob.Register(Ack{})"; "   gob.Register(Key{})" ]
    /\ Spec.count Spec.isRegistration text = 6
    /\ filter Spec.isRemoteCall (Spec.lines text)
       = map (fun m => Spec.remoteCall "Store" (Name m))
             (Methods Examples.threeMethods)
    /\ Spec.count Spec.isRemoteCall text = 3
    /\ Spec.count Spec.isClientMethod text = 4
    /\ Spec.count Spec.isConstructor text = 1
    /\ Spec.count Spec.isCloseDelegation text = 1
    /\ Spec.count Spec.isFunc text = 6.
Proof.
  apply (C4_rendered_counts Examples.threeMethods). reflexivity.
Defined.

(** ** C9: two runs of the render *)



(** ** C5: interfaces without eligible method *)

(** With no method the expansion is the bare client. *)
Lemma expansion_bare (packageName serviceName : string) :
  template.Execute parsedClientTemplate
    (reflectServiceData (mkServiceData packageName serviceName []))
  = template.Done (Spec.bareClient packageName serviceName).
Proof.
  assert (H : exists text,
             template.Execute parsedClientTemplate
               (reflectServiceData (mkServiceData packageName serviceName []))
             = template.Done text
             /\ text = Spec.bareClient packageName serviceName).
  { eexists. split.
    - unfold template.Execute, parsedClientTemplate, reflectServiceData.
      expand_template.
    - cbn [PackageName ServiceName Methods map concatStrings].
      unfold Spec.bareClient. cbn [joinLines].
      rewrite ?append_assoc. reflexivity. }
  destruct H as (text & Hx & ->). exact Hx.
Qed.

(** The loop body returns on a method entry. *)
Lemma extractMethod_returns (fileName serviceName : string) (m : ast.Field) :
  Spec.methodEntry m = true ->
  exists r, extractMethod fileName serviceName m = Ok r.
Proof.
  unfold Spec.methodEntry.
  destruct (ast.Type_ m) eqn:Ht;
    try solve [intros _; unfold extractMethod; rewrite Ht; eauto].
  destruct (ast.Names m) as [| name rest] eqn:Hn; [simpl; discriminate |].
  simpl. intros Hq. apply negb_true_iff in Hq.
  destruct (validate_returns fileName serviceName name f Hq) as [[| d] Hv].
  - destruct (extractMethod_accepted fileName serviceName m f name rest Ht Hn Hv)
      as (_ & _ & _ & _ & req & x & _ & _ & _ & _ & He).
    eauto.
  - unfold extractMethod. rewrite Ht, Hn. cbn [index nth_error bind].
    rewrite Hv. simpl. eauto.
Qed.

(** It adds no method for an entry that is not accepted. *)
Lemma extractMethod_rejected (fileName serviceName : string) (m : ast.Field)
    (r : option Method) :
  Spec.acceptedEntry m = false ->
  extractMethod fileName serviceName m = Ok r -> r = None.
Proof.
  intros Ha He. apply extractMethod_names in He.
  rewrite acceptedNames_single, Ha in He.
  destruct r; [discriminate | reflexivity].
Qed.

Lemma extractMethodsFrom_returns (fileName serviceName : string)
    (l : list ast.Field) :
  forallb Spec.methodEntry l = true ->
  forall acc, exists ms,
    extractMethodsFrom fileName serviceName l acc = Ok ms
    /\ (existsb Spec.acceptedEntry l = false -> ms = acc).
Proof.
  induction l as [| m l IH]; simpl; intros H acc; [eauto |].
  apply andb_true_iff in H as [Hm Hl].
  destruct (extractMethod_returns fileName serviceName m Hm) as [r Hr].
  rewrite Hr. cbn [bind].
  destruct (IH Hl (match r with Some m' => acc ++ [m'] | None => acc end))
    as (ms & Hms & Hnone).
  exists ms. split; [exact Hms |].
  intros Hex. apply orb_false_iff in Hex as [Ha Hex].
  rewrite (extractMethod_rejected _ _ _ _ Ha Hr) in Hnone. auto.
Qed.

(** C5 fails on the code.  [type C interface { func() }] is an interface
    declaration none of whose entries passes validation, and no description
    is produced for it: the loop of [extractMethods] reads
    [method.Names[0]] before it calls the validator, the type element has no
    name, and the index is out of range.  The scan panics with it, so the
    interface [Echo] declared before [C] in the same file gets no
    description either, and [main] ends in the panic without writing a
    file. *)
Theorem C5_unnamed_entry_panics_the_scan :
  Spec.interfacesOf [Examples.elementPackage]
  = [ Spec.mkFound "api" "c.go" "Echo" Examples.echo;
      Spec.mkFound "api" "c.go" "C" Examples.funcElement ]
  /\ Spec.noneAccepted (Spec.mkFound "api" "c.go" "C" Examples.funcElement)
     = true
  /\ extractMethods "c.go" "C" Examples.funcElement = Panic IndexOutOfRange
  /\ scan [Examples.elementPackage] = Panic IndexOutOfRange
  /\ forall (env : Env) (fs : FS),
       main env (Some [Examples.elementPackage]) fs
       = (Crash IndexOutOfRange, fs).
Proof.
  repeat split; try reflexivity.
Qed.

(** * Further properties *)

(** ** The validator and the extraction loop *)

(** X1: the validator returns true exactly when the parameter list has two
    entries, the first of type context.Context, the second of an identifier
    type, and the result list has two entries, the first of a pointer type,
    the second of type error, however many names an entry declares. *)
Theorem X1_validator_accepts_entry_shape
    (fileName serviceName methodName : string) (ft : ast.FuncType) :
  validateMethodSignature fileName serviceName methodName (Some ft) = Ok Valid
  <-> Spec.entryShape ft = true.
Proof. apply validate_valid_iff. Qed.

(** X2: on a function type the validator panics exactly when the parameter
    list has two entries and the first is a selector whose operand is no
    identifier; the panic is the failed type assertion. *)
Theorem X2_validator_panics_on_nested_qualifier
    (fileName serviceName methodName : string) (ft : ast.FuncType)
    (p : PanicKind) :
  validateMethodSignature fileName serviceName methodName (Some ft) = Panic p
  <-> Spec.nestedQualifier ft = true /\ p = TypeAssertionFailed.
Proof. apply validate_panic_iff. Qed.

(** On an entry that is no method entry the loop body panics: out of range
    on a function type without name, on the type assertion otherwise. *)
Lemma extractMethod_panics (fileName serviceName : string) (m : ast.Field) :
  Spec.methodEntry m = false ->
  extractMethod fileName serviceName m = Panic IndexOutOfRange
  \/ extractMethod fileName serviceName m = Panic TypeAssertionFailed.
Proof.
  unfold Spec.methodEntry, extractMethod.
  destruct (ast.Type_ m) eqn:Ht; try discriminate.
  destruct (ast.Names m) as [| name rest] eqn:Hn; [intros _; now left |].
  cbn [List.length Nat.eqb negb andb]. intros Hq.
  apply negb_false_iff in Hq. right.
  cbn [index nth_error bind].
  assert (Hv : validateMethodSignature fileName serviceName name (Some f)
               = Panic TypeAssertionFailed)
    by (now apply validate_panic_iff).
  now rewrite Hv.
Qed.

Lemma extractMethodsFrom_panics (fileName serviceName : string)
    (l : list ast.Field) :
  forallb Spec.methodEntry l = false ->
  forall acc,
    extractMethodsFrom fileName serviceName l acc = Panic IndexOutOfRange
    \/ extractMethodsFrom fileName serviceName l acc = Panic TypeAssertionFailed.
Proof.
  induction l as [| m l IH]; [discriminate |].
  cbn [forallb extractMethodsFrom]. intros H acc.
  destruct (Spec.methodEntry m) eqn:Hm.
  - destruct (extractMethod_returns fileName serviceName m Hm) as [r ->].
    cbn [bind]. now apply IH.
  - destruct (extractMethod_panics fileName serviceName m Hm) as [-> | ->];
      [now left | now right].
Qed.

(** X3: the extraction of an interface returns exactly when every entry of
    function type carries a name and has no nested qualifier; otherwise it
    panics, out of range or on the type assertion. *)
Theorem X3_extraction_returns_iff_method_entries
    (fileName serviceName : string) (interfaceType : ast.InterfaceType) :
  ((exists ms, extractMethods fileName serviceName interfaceType = Ok ms)
   <-> forallb Spec.methodEntry (ast.Methods interfaceType) = true)
  /\ (extractMethods fileName serviceName interfaceType = Panic IndexOutOfRange
      \/ extractMethods fileName serviceName interfaceType
         = Panic TypeAssertionFailed
      <-> forallb Spec.methodEntry (ast.Methods interfaceType) = false).
Proof.
  unfold extractMethods.
  destruct (forallb Spec.methodEntry (ast.Methods interfaceType)) eqn:H.
  - destruct (extractMethodsFrom_returns fileName serviceName _ H [])
      as (ms & Hms & _).
    rewrite Hms. split; split; eauto; try discriminate.
    intros [? | ?]; discriminate.
  - pose proof (extractMethodsFrom_panics fileName serviceName _ H []) as Hp.
    split; split; auto; try discriminate.
    intros [ms Hms]. destruct Hp as [Hp | Hp]; congruence.
Qed.

Lemma extractMethod_not_function (fileName serviceName : string)
    (m : ast.Field) :
  Behaviour.isFunctionEntry m = false ->
  extractMethod fileName serviceName m = Ok None.
Proof.
  unfold Behaviour.isFunctionEntry, extractMethod.
  destruct (ast.Type_ m); try reflexivity. discriminate.
Qed.

(** X4: entries that have no function type (embedded interfaces, type
    elements) add nothing and are not looked into: the extraction yields
    what it yields on the function-typed entries alone. *)
Theorem X4_embedded_entries_skipped
    (fileName serviceName : string) (entries : list ast.Field) :
  extractMethods fileName serviceName
    (ast.mkInterfaceType (filter Behaviour.isFunctionEntry entries))
  = extractMethods fileName serviceName (ast.mkInterfaceType entries).
Proof.
  unfold extractMethods. cbn [ast.Methods]. generalize (@nil Method).
  induction entries as [| m l IH]; intros acc; [reflexivity |].
  cbn [filter]. destruct (Behaviour.isFunctionEntry m) eqn:Hm.
  - cbn [extractMethodsFrom].
    destruct (extractMethod fileName serviceName m) as [r | p];
      [cbn [bind]; apply IH | reflexivity].
  - cbn [extractMethodsFrom].
    rewrite (extractMethod_not_function fileName serviceName m Hm).
    cbn [bind]. apply IH.
Qed.

Lemma extractMethod_record (fileName serviceName : string) (m : ast.Field)
    (r : option Method) :
  extractMethod fileName serviceName m = Ok r ->
  match r with Some x => [x] | None => [] end = Behaviour.recordOf m.
Proof.
  unfold Behaviour.recordOf.
  destruct (ast.Type_ m) eqn:Ht;
    try (unfold extractMethod; rewrite Ht; intros [= <-]; reflexivity).
  destruct (ast.Names m) as [| name rest] eqn:Hn.
  { unfold extractMethod. rewrite Ht, Hn. discriminate. }
  destruct (validateMethodSignature fileName serviceName name (Some f))
    as [[| d] | p] eqn:Hv.
  - destruct (extractMethod_accepted fileName serviceName m f name rest Ht Hn Hv)
      as (p0 & p1 & r0 & r1 & req & x & Hp & Hp1 & Hr & Hr0 & He).
    rewrite He. intros [= <-].
    rewrite (proj1 (validate_valid_iff _ _ _ _) Hv), Hp, Hr, Hp1, Hr0.
    reflexivity.
  - unfold extractMethod. rewrite Ht, Hn. cbn [index nth_error bind].
    rewrite Hv. simpl. intros [= <-].
    destruct (Spec.entryShape f) eqn:Hs; [| reflexivity].
    apply (validate_valid_iff fileName serviceName name) in Hs. congruence.
  - unfold extractMethod. rewrite Ht, Hn. cbn [index nth_error bind].
    rewrite Hv. discriminate.
Qed.

Lemma extractMethodsFrom_records (fileName serviceName : string)
    (l : list ast.Field) :
  forall acc ms,
    extractMethodsFrom fileName serviceName l acc = Ok ms ->
    ms = acc ++ Behaviour.recordsOf l.
Proof.
  induction l as [| m l IH]; intros acc ms.
  - simpl. intros [= <-]. now rewrite app_nil_r.
  - cbn [extractMethodsFrom].
    destruct (extractMethod fileName serviceName m) as [r | p] eqn:Hm;
      [| discriminate].
    cbn [bind]. intros H. apply IH in H. rewrite H.
    unfold Behaviour.recordsOf. cbn [flat_map].
    rewrite <- (extractMethod_record _ _ _ _ Hm).
    destruct r; [| reflexivity]. now rewrite <- app_assoc.
Qed.

(** X5: when the extraction returns, the methods are the records of the
    accepted entries, one per accepted entry in declaration order: the
    entry's first name, the identifier of its second parameter and the type
    name of what its first result points to.  It reorders and invents
    nothing. *)
Theorem X5_extraction_is_records_of_accepted
    (fileName serviceName : string) (interfaceType : ast.InterfaceType)
    (ms : list Method) :
  extractMethods fileName serviceName interfaceType = Ok ms ->
  ms = Behaviour.recordsOf (ast.Methods interfaceType).
Proof.
  intros H. apply extractMethodsFrom_records in H. exact H.
Qed.

Lemma X5_extraction_is_records_of_accepted_witness :
  [mkMethod "Say" "Msg" "Reply"]
  = Behaviour.recordsOf (ast.Methods Examples.echo).
Proof.
  apply (X5_extraction_is_records_of_accepted "echo.go" "Echo" Examples.echo).
  reflexivity.
Defined.

(** ** The earlier revision of the extraction *)

Lemma Rev1_extractMethod_record (m : ast.Field) :
  Behaviour.entryRev1 m = true ->
  exists r, Rev1.extractMethod m = Ok r
            /\ match r with Some x => [x] | None => [] end
               = Behaviour.recordOfRev1 m.
Proof.
  unfold Behaviour.entryRev1, Rev1.extractMethod, Behaviour.recordOfRev1.
  destruct (ast.Type_ m) as [ | ? | ? | ? | ? | ? ? | ? ? | ? | ? ? | ? | ft | ? | ? ? | ? | ? ? | ? ];
    try (intros _; eexists; split; reflexivity).
  destruct (ast.Names m) as [| name rest]; [discriminate |].
  destruct ft as [[[| p0 [| p1 ps]] |] rs]; cbn; try discriminate;
    intros _; eexists; split; reflexivity.
Qed.

Lemma Rev1_extractMethod_panics (m : ast.Field) :
  Behaviour.entryRev1 m = false ->
  Rev1.extractMethod m = Panic IndexOutOfRange
  \/ Rev1.extractMethod m = Panic NilDereference.
Proof.
  unfold Behaviour.entryRev1, Rev1.extractMethod.
  destruct (ast.Type_ m) as [ | ? | ? | ? | ? | ? ? | ? ? | ? | ? ? | ? | ft | ? | ? ? | ? | ? ? | ? ];
    try discriminate.
  destruct (ast.Names m) as [| name rest]; [intros _; now left |].
  destruct ft as [[ps |] rs]; cbn; [discriminate | intros _; now right].
Qed.

Lemma Rev1_extractMethodsFrom (l : list ast.Field) :
  forall acc,
    if forallb Behaviour.entryRev1 l
    then Rev1.extractMethodsFrom l acc
         = Ok (acc ++ flat_map Behaviour.recordOfRev1 l)
    else Rev1.extractMethodsFrom l acc = Panic IndexOutOfRange
         \/ Rev1.extractMethodsFrom l acc = Panic NilDereference.
Proof.
  induction l as [| m l IH]; intros acc.
  - simpl. now rewrite app_nil_r.
  - cbn [forallb Rev1.extractMethodsFrom flat_map].
    destruct (Behaviour.entryRev1 m) eqn:Hm.
    + destruct (Rev1_extractMethod_record m Hm) as (r & -> & Hr).
      cbn [bind andb]. rewrite <- Hr.
      specialize (IH (match r with Some m' => acc ++ [m'] | None => acc end)).
      destruct (forallb Behaviour.entryRev1 l); [| exact IH].
      rewrite IH. destruct r; [now rewrite <- app_assoc | reflexivity].
    + cbn [andb].
      destruct (Rev1_extractMethod_panics m Hm) as [-> | ->];
        [now left | now right].
Qed.

(** X6: the earlier revision of extractMethods has no validator: it returns
    exactly when every entry of function type carries a name and a
    parameter list, and then yields one method per function-typed entry
    with at least two parameter entries, in declaration order, the request
    type read off the first parameter and the response type off the second
    with one leading marker removed; results are not looked at.  Otherwise
    it panics, out of range or on the nil parameter list. *)
Theorem X6_earlier_extraction (interfaceType : ast.InterfaceType) :
  if forallb Behaviour.entryRev1 (ast.Methods interfaceType)
  then Rev1.extractMethods interfaceType
       = Ok (flat_map Behaviour.recordOfRev1 (ast.Methods interfaceType))
  else Rev1.extractMethods interfaceType = Panic IndexOutOfRange
       \/ Rev1.extractMethods interfaceType = Panic NilDereference.
Proof.
  exact (Rev1_extractMethodsFrom (ast.Methods interfaceType) []).
Qed.

(** ** The scan *)

Lemma foldM_closed {A S' : Type}
    (f : A -> list S' -> result (list S')) (g : A -> list S') (l : list A) :
  Forall (fun x => forall s s', f x s = Ok s' -> s' = s ++ g x) l ->
  forall s s', foldM f l s = Ok s' -> s' = s ++ flat_map g l.
Proof.
  induction 1 as [| x l Hx _ IH]; intros s s'; simpl.
  - intros [= <-]. now rewrite app_nil_r.
  - destruct (f x s) as [s1 | p] eqn:Hf; [| discriminate].
    cbn [bind]. intros H. apply IH in H. apply Hx in Hf. subst.
    now rewrite <- app_assoc.
Qed.

Lemma foldM_ok_inv {A S' : Type} (f : A -> S' -> result S')
    (P : A -> Prop) (l : list A) :
  Forall (fun x => forall s s', f x s = Ok s' -> P x) l ->
  forall s s', foldM f l s = Ok s' -> Forall P l.
Proof.
  induction 1 as [| x l Hx _ IH]; intros s s'; simpl; [constructor |].
  destruct (f x s) as [s1 | p] eqn:Hf; [| discriminate].
  cbn [bind]. intros H. constructor; eauto.
Qed.

Lemma foldM_returns {A S' : Type} (f : A -> S' -> result S')
    (P : A -> Prop) (l : list A) :
  Forall (fun x => P x -> forall s, exists s', f x s = Ok s') l ->
  Forall P l ->
  forall s, exists s', foldM f l s = Ok s'.
Proof.
  induction 1 as [| x l Hx _ IH]; intros HP s; simpl; [eauto |].
  inversion HP as [| ? ? Hp Hl]; subst.
  destruct (Hx Hp s) as [s1 ->]. cbn [bind]. now apply IH.
Qed.

Lemma Node_induction (P : ast.Node -> Prop) :
  (forall name t children,
      Forall P children -> P (ast.TypeSpec name t children)) ->
  (forall children, Forall P children -> P (ast.Other children)) ->
  forall n, P n.
Proof.
  intros HT HO. fix IH 1. intros [name t children | children].
  - apply HT. induction children as [| c children IHc]; constructor.
    + apply IH.
    + exact IHc.
  - apply HO. induction children as [| c children IHc]; constructor.
    + apply IH.
    + exact IHc.
Qed.

Section ScanClosed.

Variables pkgName fileName : string.

Let found (d : string * ast.InterfaceType) : Spec.Found :=
  Spec.mkFound pkgName fileName (fst d) (snd d).

Let wellFormedIn (ds : list (string * ast.InterfaceType)) : Prop :=
  Forall (fun d => Spec.wellFormed (found d) = true) ds.

(** The callback appends the description of the interface the node
    declares, when it returns. *)
Lemma visit_closed (n : ast.Node) (s s' : list ServiceData) :
  visit pkgName fileName n s = Ok s' ->
  s' = s ++ map (fun d => Behaviour.describe (found d))
                (Spec.declaredInterface n)
  /\ wellFormedIn (Spec.declaredInterface n).
Proof.
  unfold wellFormedIn, found.
  destruct n as [name t children | children];
    [| simpl; intros [= <-]; rewrite app_nil_r; split; [reflexivity | constructor]].
  destruct t;
    try (simpl; intros [= <-]; rewrite app_nil_r; split;
         [reflexivity | constructor]).
  cbn [visit Spec.declaredInterface map fst snd].
  destruct (extractMethods fileName name i) as [ms | p] eqn:He; [| discriminate].
  cbn [bind]. intros [= <-]. split.
  - pose proof He as Hr. apply extractMethodsFrom_records in Hr.
    simpl in Hr. subst ms. reflexivity.
  - constructor; [| constructor]. unfold Spec.wellFormed.
    cbn [Spec.declType snd].
    destruct (forallb Spec.methodEntry (ast.Methods i)) eqn:Hw; [reflexivity |].
    destruct (extractMethodsFrom_panics fileName name _ Hw []) as [Hp | Hp];
      unfold extractMethods in He; congruence.
Qed.

(** It returns when the interface the node declares is well formed. *)
Lemma visit_returns (n : ast.Node) :
  wellFormedIn (Spec.declaredInterface n) ->
  forall s, exists s', visit pkgName fileName n s = Ok s'.
Proof.
  unfold wellFormedIn, found.
  destruct n as [name t children | children]; [| simpl; eauto].
  destruct t; try (simpl; eauto).
  cbn [Spec.declaredInterface]. intros H s.
  inversion H as [| ? ? Hd _]; subst. unfold Spec.wellFormed in Hd.
  cbn [Spec.declType fst snd] in Hd.
  destruct (extractMethodsFrom_returns fileName name (ast.Methods i) Hd [])
    as (ms & Hms & _).
  cbn [visit]. unfold extractMethods. rewrite Hms. cbn [bind]. eauto.
Qed.

(** The walk through a tree appends the descriptions of the interface
    declarations of the tree, in the order of the traversal, when it
    returns; it returns when they are well formed. *)
Lemma Inspect_closed (n : ast.Node) :
  forall s s',
    Inspect (visit pkgName fileName) n s = Ok s' ->
    s' = s ++ map (fun d => Behaviour.describe (found d))
                  (Spec.interfacesOfNode n)
    /\ wellFormedIn (Spec.interfacesOfNode n).
Proof.
  unfold wellFormedIn.
  induction n as [name t children IH | children IH] using Node_induction;
    intros s s'; cbn [Inspect Spec.interfacesOfNode];
    (destruct (visit pkgName fileName _ s) as [s1 | p] eqn:Hv;
       [| discriminate]);
    apply visit_closed in Hv as [-> Hw]; cbn [bind]; intros H;
    rewrite map_app, app_assoc; split.
  - f_equal.
    rewrite flat_map_concat_map, concat_map, map_map, <- flat_map_concat_map.
    refine (foldM_closed _ _ children _ _ s' H).
    refine (Forall_impl _ _ IH). intros c Hc s1 s2 Hi.
    now apply Hc in Hi.
  - apply Forall_app. split; [exact Hw |]. apply Forall_flat_map.
    refine (foldM_ok_inv _ _ children _ _ s' H).
    refine (Forall_impl _ _ IH). intros c Hc s1 s2 Hi.
    now apply Hc in Hi.
  - f_equal.
    rewrite flat_map_concat_map, concat_map, map_map, <- flat_map_concat_map.
    refine (foldM_closed _ _ children _ _ s' H).
    refine (Forall_impl _ _ IH). intros c Hc s1 s2 Hi.
    now apply Hc in Hi.
  - apply Forall_app. split; [exact Hw |]. apply Forall_flat_map.
    refine (foldM_ok_inv _ _ children _ _ s' H).
    refine (Forall_impl _ _ IH). intros c Hc s1 s2 Hi.
    now apply Hc in Hi.
Qed.

Lemma Inspect_returns (n : ast.Node) :
  wellFormedIn (Spec.interfacesOfNode n) ->
  forall s, exists s', Inspect (visit pkgName fileName) n s = Ok s'.
Proof.
  unfold wellFormedIn.
  induction n as [name t children IH | children IH] using Node_induction;
    cbn [Inspect Spec.interfacesOfNode]; intros H s;
    apply Forall_app in H as [Hd Hc];
    destruct (visit_returns _ Hd s) as [s1 ->]; cbn [bind];
    apply Forall_flat_map in Hc;
    exact (foldM_returns _ _ children IH Hc s1).
Qed.

End ScanClosed.

Lemma map_flat_map {A B C : Type} (f : B -> C) (g : A -> list B)
    (l : list A) :
  map f (flat_map g l) = flat_map (fun x => map f (g x)) l.
Proof.
  now rewrite flat_map_concat_map, concat_map, map_map, <- flat_map_concat_map.
Qed.

Lemma scanFile_closed (pkgName : string) (entry : string * ast.File)
    (s s' : list ServiceData) :
  scanFile pkgName entry s = Ok s' ->
  s' = s ++ map Behaviour.describe (Spec.interfacesOfFile pkgName entry)
  /\ Forall (fun d => Spec.wellFormed d = true)
            (Spec.interfacesOfFile pkgName entry).
Proof.
  destruct entry as [fileName file].
  unfold scanFile, Spec.interfacesOfFile. cbn [fst snd]. intros H. split.
  - rewrite map_map, map_flat_map.
    refine (foldM_closed _ _ file _ s s' H).
    apply Forall_forall. intros n _ s1 s2 Hi.
    now apply Inspect_closed in Hi.
  - apply Forall_map, Forall_flat_map.
    refine (foldM_ok_inv _ _ file _ s s' H).
    apply Forall_forall. intros n _ s1 s2 Hi.
    now apply Inspect_closed in Hi.
Qed.

Lemma scanPackage_closed (pkg : ast.Package) (s s' : list ServiceData) :
  scanPackage pkg s = Ok s' ->
  s' = s ++ map Behaviour.describe
              (flat_map (Spec.interfacesOfFile (ast.PkgName pkg))
                        (ast.Files pkg))
  /\ Forall (fun d => Spec.wellFormed d = true)
            (flat_map (Spec.interfacesOfFile (ast.PkgName pkg))
                      (ast.Files pkg)).
Proof.
  unfold scanPackage. intros H. split.
  - rewrite map_flat_map.
    refine (foldM_closed _ _ (ast.Files pkg) _ s s' H).
    apply Forall_forall. intros e _ s1 s2 Hi.
    now apply scanFile_closed in Hi.
  - apply Forall_flat_map.
    refine (foldM_ok_inv _ _ (ast.Files pkg) _ s s' H).
    apply Forall_forall. intros e _ s1 s2 Hi.
    now apply scanFile_closed in Hi.
Qed.

Lemma scan_closed (pkgs : list ast.Package) (sds : list ServiceData) :
  scan pkgs = Ok sds ->
  sds = map Behaviour.describe (Spec.interfacesOf pkgs)
  /\ Forall (fun d => Spec.wellFormed d = true) (Spec.interfacesOf pkgs).
Proof.
  unfold scan, Spec.interfacesOf. intros H. split.
  - rewrite map_flat_map.
    refine (foldM_closed _ _ pkgs _ [] sds H).
    apply Forall_forall. intros e _ s1 s2 Hi.
    now apply scanPackage_closed in Hi.
  - apply Forall_flat_map.
    refine (foldM_ok_inv _ _ pkgs _ [] sds H).
    apply Forall_forall. intros e _ s1 s2 Hi.
    now apply scanPackage_closed in Hi.
Qed.

Lemma scan_returns (pkgs : list ast.Package) :
  Forall (fun d => Spec.wellFormed d = true) (Spec.interfacesOf pkgs) ->
  exists sds, scan pkgs = Ok sds.
Proof.
  unfold scan, Spec.interfacesOf. intros H. apply Forall_flat_map in H.
  refine (foldM_returns scanPackage _ pkgs _ H []).
  apply Forall_forall. intros pkg _ Hpkg s. unfold scanPackage.
  apply Forall_flat_map in Hpkg.
  refine (foldM_returns (scanFile (ast.PkgName pkg)) _ (ast.Files pkg) _ Hpkg s).
  apply Forall_forall. intros [fileName file] _ Hfile s1.
  unfold scanFile, Spec.interfacesOfFile in *. cbn [fst snd] in Hfile.
  apply Forall_map, Forall_flat_map in Hfile.
  refine (foldM_returns _ _ file _ Hfile s1).
  apply Forall_forall. intros n _ Hn. now apply Inspect_returns.
Qed.

Lemma forallb_Forall {A : Type} (p : A -> bool) (l : list A) :
  forallb p l = true <-> Forall (fun x => p x = true) l.
Proof. rewrite forallb_forall, Forall_forall. reflexivity. Qed.

(** X7: the scan returns exactly when, in every interface declaration of
    the tree, at the top level or nested in a type expression, every entry
    of function type carries a name and has no nested qualifier: one entry
    off that shape anywhere makes the whole scan panic, whatever the other
    declarations are. *)
Theorem X7_scan_returns_iff_well_formed (pkgs : list ast.Package) :
  (exists serviceDatas, scan pkgs = Ok serviceDatas)
  <-> forallb Spec.wellFormed (Spec.interfacesOf pkgs) = true.
Proof.
  split.
  - intros [sds H]. apply forallb_Forall. now apply scan_closed in H.
  - intros H. apply forallb_Forall in H.
    now apply scan_returns.
Qed.

(** X8: when the scan returns, the service descriptions are, in the order
    of the traversal, one per interface declaration of the tree, those
    nested in the type expression of another declaration after it: its
    package, its name, and the records of its accepted entries.  Type
    declarations that are no interface add nothing of their own. *)
Theorem X8_scan_is_description_of_interfaces (pkgs : list ast.Package)
    (serviceDatas : list ServiceData) :
  scan pkgs = Ok serviceDatas ->
  serviceDatas = map Behaviour.describe (Spec.interfacesOf pkgs).
Proof. intros H. now apply scan_closed in H. Qed.

Lemma X8_scan_is_description_of_interfaces_witness :
  [ mkServiceData "api" "Echo" [];
    mkServiceData "api" "Inner" [mkMethod "Say" "Msg" "Reply"] ]
  = map Behaviour.describe
        (Spec.interfacesOf [Examples.echoPackage; Examples.nestedPackage]).
Proof.
  apply (X8_scan_is_description_of_interfaces
           [Examples.echoPackage; Examples.nestedPackage]).
  reflexivity.
Defined.

Lemma scan_reordered (pkgs pkgs' : list ast.Package)
    (sds : list ServiceData) :
  Permutation (Spec.interfacesOf pkgs) (Spec.interfacesOf pkgs') ->
  scan pkgs = Ok sds ->
  exists sds', scan pkgs' = Ok sds' /\ Permutation sds sds'.
Proof.
  intros Hp Hs. apply scan_closed in Hs as [-> Hwf].
  destruct (scan_returns pkgs') as (sds' & Hs').
  { apply Forall_forall. intros d Hd.
    apply (proj1 (Forall_forall _ _) Hwf).
    apply Permutation_in with (l := Spec.interfacesOf pkgs'); [| exact Hd].
    now symmetry. }
  exists sds'. split; [exact Hs' |].
  apply scan_closed in Hs' as [-> _]. now apply Permutation_map.
Qed.

(** X9: the order in which the map of packages is iterated changes the
    order of the service descriptions and nothing else: on a permutation of
    the packages the scan returns as well, with a permutation of the same
    descriptions. *)
Theorem X9_package_order_permutes_descriptions (pkgs pkgs' : list ast.Package)
    (serviceDatas : list ServiceData) :
  Permutation pkgs pkgs' ->
  scan pkgs = Ok serviceDatas ->
  exists serviceDatas',
    scan pkgs' = Ok serviceDatas' /\ Permutation serviceDatas serviceDatas'.
Proof.
  intros Hp. apply scan_reordered. unfold Spec.interfacesOf.
  now apply Permutation_flat_map.
Qed.

Lemma X9_package_order_permutes_descriptions_witness :
  let other :=
    ast.mkPackage "store"
      [("store.go",
        [ast.TypeSpec "Store"
           (ast.InterfaceTypeExpr
              (ast.mkInterfaceType [Examples.method "Get" Examples.getTwice]))
           []])]
  in
  exists serviceDatas',
    scan [other; Examples.echoPackage] = Ok serviceDatas'
    /\ Permutation
         [mkServiceData "api" "Echo" [];
          mkServiceData "store" "Store" [mkMethod "Get" "Key" "*Reply"]]
         serviceDatas'.
Proof.
  intros other.
  apply (X9_package_order_permutes_descriptions
           [Examples.echoPackage; other] [other; Examples.echoPackage]).
  - apply perm_swap.
  - reflexivity.
Defined.

(** X10: the same for the map of files of a package: iterating the files of
    one package in another order permutes the descriptions. *)
Theorem X10_file_order_permutes_descriptions
    (before after : list ast.Package) (name : string)
    (files files' : list (string * ast.File))
    (serviceDatas : list ServiceData) :
  Permutation files files' ->
  scan (before ++ ast.mkPackage name files :: after) = Ok serviceDatas ->
  exists serviceDatas',
    scan (before ++ ast.mkPackage name files' :: after) = Ok serviceDatas'
    /\ Permutation serviceDatas serviceDatas'.
Proof.
  intros Hp. apply scan_reordered. unfold Spec.interfacesOf.
  rewrite !flat_map_app. cbn [flat_map ast.PkgName ast.Files].
  apply Permutation_app_head, Permutation_app_tail.
  now apply Permutation_flat_map.
Qed.

Lemma X10_file_order_permutes_descriptions_witness :
  let a :=
    ("a.go", [ast.TypeSpec "Echo" (ast.InterfaceTypeExpr Examples.echo) []]) in
  let b :=
    ("b.go", [ast.TypeSpec "Bare" (ast.InterfaceTypeExpr Examples.echoBare) []])
  in
  exists serviceDatas',
    scan ([] ++ ast.mkPackage "api" [b; a] :: []) = Ok serviceDatas'
    /\ Permutation
         [mkServiceData "api" "Echo" [mkMethod "Say" "Msg" "Reply"];
          mkServiceData "api" "Bare" []]
         serviceDatas'.
Proof.
  intros a b.
  apply (X10_file_order_permutes_descriptions [] [] "api" [a; b] [b; a]).
  - apply perm_swap.
  - reflexivity.
Defined.

(** ** Names on one line *)

Lemma singleLine_extractTypeName (e : ast.Expr) :
  Behaviour.cleanType e = true ->
  Spec.singleLine (extractTypeName e) = true.
Proof.
  induction e; simpl; auto.
Qed.

Lemma recordOf_singleLine (f : ast.Field) :
  Behaviour.cleanEntry f = true ->
  forallb Spec.singleLineMethod (Behaviour.recordOf f) = true.
Proof.
  unfold Behaviour.cleanEntry, Behaviour.recordOf.
  destruct (ast.Type_ f) as [ | ? | ? | ? | ? | ? ? | ? ? | ? | ? ? | ? | ft | ? | ? ? | ? | ? ? | ? ];
    try reflexivity.
  destruct (ast.Names f) as [| name rest]; [reflexivity |].
  destruct (Spec.entryShape ft); [| reflexivity].
  destruct ft as [[[| p0 [| [n1 t1] [| p2 ps]]] |]
                  [[| [m0 u0] [| r1 [| r2 rs]]] |]]; try reflexivity.
  cbn [ast.Params ast.Results ast.Type_].
  destruct t1; try reflexivity. destruct u0; try reflexivity.
  cbn [forallb Behaviour.cleanFields ast.Params ast.Results ast.Type_
       Behaviour.cleanType].
  intros H.
  repeat match goal with
         | H : (_ && _)%bool = true |- _ => apply andb_true_iff in H as [? ?]
         end.
  unfold Spec.singleLineMethod. cbn [Name RequestType ResponseType].
  repeat (apply andb_true_iff; split); auto.
  now apply singleLine_extractTypeName.
Qed.

Lemma describe_singleLine (d : Spec.Found) :
  Behaviour.cleanFound d = true ->
  Spec.singleLineNames (Behaviour.describe d) = true.
Proof.
  unfold Behaviour.cleanFound, Spec.singleLineNames, Behaviour.describe.
  cbn [PackageName ServiceName Methods]. intros H.
  apply andb_true_iff in H as [H Hm]. rewrite H. cbn [andb].
  unfold Behaviour.recordsOf.
  induction (ast.Methods (Spec.declType d)) as [| f l IH]; [reflexivity |].
  cbn [forallb flat_map] in *. apply andb_true_iff in Hm as [Hf Hl].
  rewrite forallb_app, (recordOf_singleLine f Hf). now apply IH.
Qed.

(** X11: the scan keeps names on one line: when the package names, the
    interface names, the method names and the identifiers of the parameter
    and result types hold no line feed, so do all the names of every service
    description the scan returns. *)
Theorem X11_scan_keeps_names_on_one_line (pkgs : list ast.Package)
    (serviceDatas : list ServiceData) :
  scan pkgs = Ok serviceDatas ->
  forallb Behaviour.cleanFound (Spec.interfacesOf pkgs) = true ->
  forallb Spec.singleLineNames serviceDatas = true.
Proof.
  intros Hs Hc. apply scan_closed in Hs as [-> _].
  induction (Spec.interfacesOf pkgs) as [| d l IH]; [reflexivity |].
  cbn [forallb map] in *. apply andb_true_iff in Hc as [Hd Hl].
  now rewrite (describe_singleLine d Hd), (IH Hl).
Qed.

Lemma X11_scan_keeps_names_on_one_line_witness :
  forallb Spec.singleLineNames [mkServiceData "api" "Echo" []] = true.
Proof.
  apply (X11_scan_keeps_names_on_one_line [Examples.echoPackage]);
    reflexivity.
Defined.

(** ** The expansion of the client template *)

(** X12: the client template expands on every service description: its
    execution cannot fail, so the one way rendering fails is the import
    normalisation. *)
Theorem X12_client_template_always_expands (sd : ServiceData) :
  exists text,
    template.Execute parsedClientTemplate (reflectServiceData sd)
    = template.Done text
    /\ forall env,
         formattedText env parsedClientTemplate sd
         = match imports_Process env text with
           | Some formatted => inr formatted
           | None => inl ErrImports
           end.
Proof.
  assert (H : exists text,
             template.Execute parsedClientTemplate (reflectServiceData sd)
             = template.Done text).
  { eexists. unfold template.Execute, parsedClientTemplate, reflectServiceData.
    expand_template. }
  destruct H as [text H]. exists text. split; [exact H |].
  intros env. unfold formattedText. rewrite H.
  destruct (imports_Process env text); reflexivity.
Qed.

(** X13: the layout of the generated text, line by line (names on one line
    each): the package clause, the init function with one registration pair
    per method, the client type, the constructor, the call-wrapping methods
    in method order, the close method. *)
Theorem X13_generated_layout (sd : ServiceData) :
  Spec.singleLineNames sd = true ->
  exists text,
    template.Execute parsedClientTemplate (reflectServiceData sd)
    = template.Done text
    /\ Spec.lines text = Spec.generatedLines sd.
Proof. apply expansion_lines. Qed.

Lemma X13_generated_layout_witness :
  exists text,
    template.Execute parsedClientTemplate
      (reflectServiceData Examples.threeMethods)
    = template.Done text
    /\ Spec.lines text = Spec.generatedLines Examples.threeMethods.
Proof.
  apply (X13_generated_layout Examples.threeMethods). reflexivity.
Defined.

(** X14: the methods of the generated client type are one call wrapper per
    method of the description, in the same order, each with the method's
    name, taking its request type and returning a pointer to its response
    type, and last the close method; the second line of the text is the
    package clause. *)
Theorem X14_generated_method_heads (sd : ServiceData) :
  Spec.singleLineNames sd = true ->
  exists text,
    template.Execute parsedClientTemplate (reflectServiceData sd)
    = template.Done text
    /\ filter Spec.isClientMethod (Spec.lines text)
       = map (Behaviour.wrapperHead (ServiceName sd)) (Methods sd)
         ++ [Behaviour.closeHead (ServiceName sd)]
    /\ nth_error (Spec.lines text) 1
       = Some ("package " ++ PackageName sd)%string.
Proof.
  intros H.
  destruct (expansion_lines sd H) as (text & Hx & Hl).
  exists text. split; [exact Hx |]. rewrite Hl. clear Hl Hx H text.
  destruct sd as [pkg svc ms]. split; [| reflexivity].
  unfold Spec.isClientMethod. filter_lines.
  now rewrite flat_map_single.
Qed.

Lemma X14_generated_method_heads_witness :
  exists text,
    template.Execute parsedClientTemplate
      (reflectServiceData Examples.threeMethods)
    = template.Done text
    /\ filter Spec.isClientMethod (Spec.lines text)
       = map (Behaviour.wrapperHead "Store") (Methods Examples.threeMethods)
         ++ [Behaviour.closeHead "Store"]
    /\ nth_error (Spec.lines text) 1 = Some "package api".
Proof.
  apply (X14_generated_method_heads Examples.threeMethods). reflexivity.
Defined.

(** ** The output file and the source filter *)

Lemma length_append (a b : string) :
  String.length (a ++ b) = String.length a + String.length b.
Proof. induction a as [| c a IH]; simpl; [reflexivity | now rewrite IH]. Qed.

Lemma drop_append (a b : string) : drop (String.length a) (a ++ b) = b.
Proof. induction a as [| c a IH]; simpl; [now destruct b | exact IH]. Qed.

Lemma HasSuffix_append (a suffix : string) :
  strings.HasSuffix (a ++ suffix) suffix = true.
Proof.
  unfold strings.HasSuffix. rewrite length_append.
  replace (String.length a + String.length suffix - String.length suffix)
    with (String.length a) by lia.
  rewrite drop_append, String.eqb_refl, andb_true_r.
  apply Nat.leb_le. lia.
Qed.

Lemma fileName_eq (env : Env) (sd : ServiceData) :
  fileName env sd
  = (strings.ToLower (mapRunes env) (ServiceName sd) ++ "_client_gen.go")%string.
Proof. unfold fileName, fmt.Sprintf. cbn [fmt.doPrintf]. reflexivity. Qed.

(** X15: the name of a generated file never passes the filter of the
    source scan, whatever the service name: it ends in _gen.go, so a later
    run does not parse the stubs of an earlier one. *)
Theorem X15_generated_files_not_scanned (env : Env) (sd : ServiceData) :
  strings.HasSuffix (fileName env sd) "_gen.go" = true
  /\ sourceFilter (fileName env sd) = false.
Proof.
  assert (H : strings.HasSuffix (fileName env sd) "_gen.go" = true).
  { rewrite fileName_eq.
    change "_client_gen.go" with ("_client" ++ "_gen.go")%string.
    rewrite <- append_assoc. apply HasSuffix_append. }
  split; [exact H |]. unfold sourceFilter. rewrite H.
  now rewrite andb_false_r.
Qed.

Lemma append_cancel_r (a b s : string) :
  (a ++ s = b ++ s)%string -> a = b.
Proof.
  revert b. induction a as [| c a IH]; intros [| d b] H; simpl in H.
  - reflexivity.
  - exfalso. apply (f_equal String.length) in H. simpl in H.
    rewrite length_append in H. lia.
  - exfalso. apply (f_equal String.length) in H. simpl in H.
    rewrite length_append in H. lia.
  - injection H as -> H. f_equal. now apply IH.
Qed.

(** X16: two services are written to the same file name exactly when their
    lower-cased names are equal; services whose names differ by case only,
    or that have one name in two packages, share their output file. *)
Theorem X16_same_file_iff_same_lowered_name (env : Env) (a b : ServiceData) :
  fileName env a = fileName env b
  <-> strings.ToLower (mapRunes env) (ServiceName a)
      = strings.ToLower (mapRunes env) (ServiceName b).
Proof.
  rewrite !fileName_eq. split.
  - apply append_cancel_r.
  - now intros ->.
Qed.

(** ** The generation loop and [main] *)

Section Files.

Variable env : Env.
Variable temp : template.Template.

Lemma readFile_writeFile_other (p path content : string) (fs : FS) :
  p <> path -> readFile p (writeFile path content fs) = readFile p fs.
Proof.
  intros H. simpl. destruct (path =? p)%string eqn:E; [| reflexivity].
  apply String.eqb_eq in E. congruence.
Qed.

Lemma generateClientCode_frame (sd : ServiceData) (fs out : FS)
    (r : option GenError) (p : string) :
  generateClientCode env temp sd fs = (out, r) ->
  p <> filePath env sd ->
  readFile p out = readFile p fs.
Proof.
  unfold generateClientCode. intros H Hp.
  destruct (formattedText env temp sd); [now injection H as <- _ |].
  destruct (createFails env fs _); [now injection H as <- _ |].
  destruct (writeFails env _ _ _); injection H as <- _;
    now rewrite ?readFile_writeFile_other.
Qed.

Lemma generateAll_frame (sds : list ServiceData) (p : string) :
  ~ In p (map (filePath env) sds) ->
  forall fs t fs',
    generateAll env temp sds fs = (t, fs') ->
    readFile p fs' = readFile p fs.
Proof.
  induction sds as [| sd sds IH]; intros Hp fs t fs'; simpl.
  - now intros [= _ <-].
  - simpl in Hp.
    destruct (generateClientCode env temp sd fs) as [fs1 r] eqn:Hg.
    assert (H1 : readFile p fs1 = readFile p fs)
      by (apply (generateClientCode_frame sd fs fs1 r p Hg); intuition).
    destruct r; [intros [= _ <-]; exact H1 |].
    intros H. rewrite <- H1. apply (IH (fun H' => Hp (or_intror H')) _ _ _ H).
Qed.

Lemma generateAll_app_inv (pre l : list ServiceData) :
  forall fs fs',
    generateAll env temp (pre ++ l) fs = (Exit 0, fs') ->
    exists fs1,
      generateAll env temp pre fs = (Exit 0, fs1)
      /\ generateAll env temp l fs1 = (Exit 0, fs').
Proof.
  induction pre as [| s pre IH]; intros fs fs' H; simpl in *; [eauto |].
  destruct (generateClientCode env temp s fs) as [fs1 [e |]];
    [discriminate | now apply IH].
Qed.

Lemma generateAll_no_crash (sds : list ServiceData) :
  forall fs, fst (generateAll env temp sds fs) = Exit 0
             \/ fst (generateAll env temp sds fs) = Exit 1.
Proof.
  induction sds as [| sd sds IH]; intros fs; simpl; [now left |].
  destruct (generateClientCode env temp sd fs) as [fs1 [e |]];
    [now right | apply IH].
Qed.

Lemma generateAll_render_failure (sds : list ServiceData)
    (sd : ServiceData) (e : GenError) :
  In sd sds -> formattedText env temp sd = inl e ->
  forall fs, fst (generateAll env temp sds fs) = Exit 1.
Proof.
  intros Hin He. induction sds as [| s sds IH]; [contradiction |].
  intros fs. simpl.
  destruct (generateClientCode env temp s fs) as [fs1 [e1 |]] eqn:Hg;
    [reflexivity |].
  destruct Hin as [-> | Hin]; [| now apply IH].
  rewrite (generateClientCode_render_error env temp sd fs e He) in Hg.
  discriminate.
Qed.

End Files.

Lemma generateAll_last_writer (env : Env) (temp : template.Template)
    (pre post : list ServiceData) (sd : ServiceData) (fs fs' : FS) :
  generateAll env temp (pre ++ sd :: post) fs = (Exit 0, fs') ->
  ~ In (filePath env sd) (map (filePath env) post) ->
  exists text,
    formattedText env temp sd = inr text
    /\ readFile (filePath env sd) fs' = Some text.
Proof.
  intros H Hp.
  apply generateAll_app_inv in H as (fs1 & _ & H). simpl in H.
  destruct (generateClientCode env temp sd fs1) as [fs2 [e |]] eqn:Hg;
    [discriminate |].
  apply generateClientCode_written in Hg as (text & Ht & Hr).
  exists text. split; [exact Ht |].
  now rewrite (generateAll_frame env temp post _ Hp _ _ _ H).
Qed.

(** X17: in a run of the generation loop that ends with status 0, the
    output file of a service holds the text rendered for that service,
    unless a later service of the run has the same output path: the last
    writer wins, and an earlier service with that path leaves no trace. *)
Theorem X17_last_writer_wins (env : Env) (temp : template.Template)
    (pre post : list ServiceData) (sd : ServiceData) (fs fs' : FS) :
  generateAll env temp (pre ++ sd :: post) fs = (Exit 0, fs') ->
  ~ In (filePath env sd) (map (filePath env) post) ->
  exists text,
    formattedText env temp sd = inr text
    /\ readFile (filePath env sd) fs' = Some text.
Proof. apply generateAll_last_writer. Qed.

Lemma X17_last_writer_wins_witness :
  let fs' := snd (generateAll Examples.sampleEnv parsedClientTemplate
                    Behaviour.sameFile []) in
  exists text,
    formattedText Examples.sampleEnv parsedClientTemplate
      (mkServiceData "api" "ECHO" [])
    = inr text
    /\ readFile "out/echo_client_gen.go" fs' = Some text.
Proof.
  intros fs'.
  apply (X17_last_writer_wins Examples.sampleEnv parsedClientTemplate
           [mkServiceData "api" "Echo" [mkMethod "Say" "Msg" "Reply"]] []
           (mkServiceData "api" "ECHO" []) [] fs').
  - reflexivity.
  - intros [].
Defined.

(** X18: the generation loop touches no file but the output files of its
    services: however it ends, every other path reads as before. *)
Theorem X18_only_output_files_written (env : Env) (temp : template.Template)
    (serviceDatas : list ServiceData) (p : string) (fs fs' : FS)
    (t : Termination) :
  generateAll env temp serviceDatas fs = (t, fs') ->
  ~ In p (map (filePath env) serviceDatas) ->
  readFile p fs' = readFile p fs.
Proof.
  intros H Hp. exact (generateAll_frame env temp serviceDatas p Hp fs t fs' H).
Qed.

Lemma X18_only_output_files_written_witness :
  readFile "out/notes.txt"
    (snd (generateAll Examples.sampleEnv parsedClientTemplate Examples.services
            [("out/notes.txt", "keep")]))
  = readFile "out/notes.txt" [("out/notes.txt", "keep")].
Proof.
  apply (X18_only_output_files_written Examples.sampleEnv parsedClientTemplate
           Examples.services "out/notes.txt" [("out/notes.txt", "keep")] _
           (fst (generateAll Examples.sampleEnv parsedClientTemplate
                   Examples.services [("out/notes.txt", "keep")]))).
  - now destruct (generateAll Examples.sampleEnv parsedClientTemplate
                    Examples.services [("out/notes.txt", "keep")]).
  - vm_compute. intros [H | [H | [H | []]]]; discriminate H.
Defined.

(** X19: the generation loop ends with status 1 whenever rendering fails
    for one service of the list, wherever that service stands and whatever
    the services before it did: no later success turns the run into a
    success. *)
Theorem X19_render_failure_exits_1 (env : Env) (temp : template.Template)
    (serviceDatas : list ServiceData) (sd : ServiceData) (e : GenError)
    (fs : FS) :
  In sd serviceDatas ->
  formattedText env temp sd = inl e ->
  fst (generateAll env temp serviceDatas fs) = Exit 1.
Proof.
  intros Hin He. now apply generateAll_render_failure with (sd := sd) (e := e).
Qed.

Lemma X19_render_failure_exits_1_witness :
  fst (generateAll Examples.sampleEnv parsedClientTemplate Examples.services [])
  = Exit 1.
Proof.
  apply (X19_render_failure_exits_1 Examples.sampleEnv parsedClientTemplate
           Examples.services (mkServiceData "api" "Broken" []) ErrImports []).
  - right. now left.
  - reflexivity.
Defined.

(** X20: when the output file of a service cannot be created the loop stops
    there with status 1 and the file system is the one the services before
    it left: the rendered text is dropped and later services are not
    generated. *)
Theorem X20_create_failure_halts (env : Env) (temp : template.Template)
    (pre post : list ServiceData) (sd : ServiceData) (text : string)
    (fs fs' : FS) :
  generateAll env temp pre fs = (Exit 0, fs') ->
  formattedText env temp sd = inr text ->
  createFails env fs' (filePath env sd) = true ->
  generateAll env temp (pre ++ sd :: post) fs = (Exit 1, fs').
Proof.
  intros Hpre Ht Hc. revert fs Hpre.
  induction pre as [| s pre IH]; intros fs Hpre; simpl in *.
  - injection Hpre as <-. unfold generateClientCode. now rewrite Ht, Hc.
  - destruct (generateClientCode env temp s fs) as [fs1 [e |]];
      [discriminate | now apply IH].
Qed.

Lemma X20_create_failure_halts_witness :
  let env := mkEnv "out" (fun s => s) (fun text => Some text)
               (fun dir file => dir ++ "/" ++ file)%string
               (fun _ path => (path =? "out/locked_client_gen.go")%string)
               (fun _ _ _ => false) in
  let pre := [mkServiceData "api" "Echo" [mkMethod "Say" "Msg" "Reply"]] in
  let fs' := snd (generateAll env parsedClientTemplate pre []) in
  generateAll env parsedClientTemplate
    (pre ++ mkServiceData "api" "Locked" [] :: [mkServiceData "api" "Later" []])
    []
  = (Exit 1, fs').
Proof.
  intros env pre fs'.
  apply (X20_create_failure_halts env parsedClientTemplate pre
           [mkServiceData "api" "Later" []] (mkServiceData "api" "Locked" [])
           (Spec.bareClient "api" "Locked") [] fs').
  - reflexivity.
  - reflexivity.
  - reflexivity.
Defined.

(** X21: [main] panics only while it scans, and then it has written
    nothing: generation starts after the whole tree is scanned. *)
Theorem X21_crash_only_in_scan (env : Env)
    (parsed : option (list ast.Package)) (fs fs' : FS) (p : PanicKind) :
  main env parsed fs = (Crash p, fs') ->
  exists pkgs, parsed = Some pkgs /\ scan pkgs = Panic p /\ fs' = fs.
Proof.
  unfold main. destruct parsed as [pkgs |]; [| discriminate].
  destruct (scan pkgs) as [sds | q] eqn:Hscan.
  - rewrite Parse_clientTemplate. intros H.
    destruct (generateAll_no_crash env parsedClientTemplate sds fs) as [H0 | H0];
      rewrite H in H0; discriminate.
  - intros [= -> <-]. exists pkgs. now repeat split.
Qed.

Lemma X21_crash_only_in_scan_witness :
  let pkg :=
    ast.mkPackage "api"
      [("echo.go",
        [ast.TypeSpec "Echo"
           (ast.InterfaceTypeExpr
              (ast.mkInterfaceType
                 [Examples.method "Say" Examples.sayNested]))
           []])] in
  exists pkgs,
    Some [pkg] = Some pkgs
    /\ scan pkgs = Panic TypeAssertionFailed
    /\ [("out/notes.txt", "keep")] = [("out/notes.txt", "keep")].
Proof.
  intros pkg.
  apply (X21_crash_only_in_scan Examples.sampleEnv (Some [pkg])
           [("out/notes.txt", "keep")] [("out/notes.txt", "keep")]
           TypeAssertionFailed).
  reflexivity.
Defined.

(** X22: a run of [main] that ends with status 0 has generated a file for
    every interface declaration of the scanned tree, nested ones included:
    the file of a declaration holds the formatted stubs of its description,
    unless a later declaration of the scan has the same output path. *)
Theorem X22_successful_run_covers_every_interface (env : Env)
    (pkgs : list ast.Package) (fs fs' : FS)
    (before after : list Spec.Found) (found : Spec.Found) :
  main env (Some pkgs) fs = (Exit 0, fs') ->
  Spec.interfacesOf pkgs = before ++ found :: after ->
  ~ In (filePath env (Behaviour.describe found))
       (map (fun d => filePath env (Behaviour.describe d)) after) ->
  exists text,
    formattedText env parsedClientTemplate (Behaviour.describe found)
    = inr text
    /\ readFile (filePath env (Behaviour.describe found)) fs' = Some text.
Proof.
  unfold main. intros H Hsplit Hlast.
  destruct (scan pkgs) as [sds | q] eqn:Hscan; [| discriminate].
  rewrite Parse_clientTemplate in H.
  apply scan_closed in Hscan as [-> _].
  rewrite Hsplit, map_app in H. simpl in H.
  apply (generateAll_last_writer env parsedClientTemplate _ _ _ fs fs' H).
  now rewrite map_map.
Qed.

Lemma X22_successful_run_covers_every_interface_witness :
  let pkg :=
    ast.mkPackage "api"
      [("echo.go",
        [ast.Other
           [ast.TypeSpec "Echo" (ast.InterfaceTypeExpr Examples.echo) []];
         ast.Other
           [ast.TypeSpec "A"
              (ast.ArrayType (Some Examples.lenOfCall) (ast.Ident "int"))
              [ast.Other
                 [ast.Other
                    [ast.TypeSpec "ECHO"
                       (ast.InterfaceTypeExpr Examples.echoBare) []]]]]])]
  in
  exists text,
    formattedText Examples.sampleEnv parsedClientTemplate
      (mkServiceData "api" "ECHO" [])
    = inr text
    /\ readFile "out/echo_client_gen.go"
         (snd (main Examples.sampleEnv (Some [pkg]) []))
       = Some text.
Proof.
  intros pkg.
  apply (X22_successful_run_covers_every_interface Examples.sampleEnv [pkg] []
           (snd (main Examples.sampleEnv (Some [pkg]) []))
           [Spec.mkFound "api" "echo.go" "Echo" Examples.echo] []
           (Spec.mkFound "api" "echo.go" "ECHO" Examples.echoBare)).
  - reflexivity.
  - reflexivity.
  - intros [].
Defined.

(** ** Interfaces without eligible method *)

Lemma recordsOf_none_accepted (l : list ast.Field) :
  existsb Spec.acceptedEntry l = false -> Behaviour.recordsOf l = [].
Proof.
  unfold Behaviour.recordsOf.
  induction l as [| f l IH]; simpl; [reflexivity |].
  intros H. apply orb_false_iff in H as [Hf Hl]. rewrite (IH Hl), app_nil_r.
  unfold Spec.acceptedEntry in Hf. unfold Behaviour.recordOf.
  destruct (ast.Type_ f); try reflexivity.
  rewrite Hf. now destruct (ast.Names f).
Qed.

(** X23: when the scan returns, an interface declaration none of whose
    entries is accepted has its description all the same, with the empty
    method sequence, and the client template expands on it to the bare
    client, whose top-level declarations are the init function (empty), the
    client type, the constructor and the close method. *)
Theorem X23_no_accepted_method_bare_client (pkgs : list ast.Package)
    (serviceDatas : list ServiceData) (d : Spec.Found) :
  scan pkgs = Ok serviceDatas ->
  In d (Spec.interfacesOf pkgs) ->
  Spec.noneAccepted d = true ->
  In (mkServiceData (Spec.inPackage d) (Spec.declName d) []) serviceDatas
  /\ template.Execute parsedClientTemplate
       (reflectServiceData
          (mkServiceData (Spec.inPackage d) (Spec.declName d) []))
     = template.Done (Spec.bareClient (Spec.inPackage d) (Spec.declName d))
  /\ (Spec.singleLine (Spec.inPackage d) = true ->
      Spec.singleLine (Spec.declName d) = true ->
      filter Spec.isTopLevel
        (Spec.lines (Spec.bareClient (Spec.inPackage d) (Spec.declName d)))
      = [ "func init() {";
          "type " ++ Spec.declName d ++ "Client struct {";
          "func New" ++ Spec.declName d ++ "Client(address string) ("
            ++ "*" ++ Spec.declName d ++ "Client, error) {";
          "func (c *" ++ Spec.declName d ++ "Client) Close() error {"
        ]%string).
Proof.
  intros Hscan Hin Hnone. apply scan_closed in Hscan as [-> _].
  split; [| split].
  - apply in_map with (f := Behaviour.describe) in Hin.
    unfold Behaviour.describe in Hin at 1.
    unfold Spec.noneAccepted in Hnone. apply negb_true_iff in Hnone.
    now rewrite (recordsOf_none_accepted _ Hnone) in Hin.
  - apply expansion_bare.
  - intros Hpkg Hsvc.
    destruct (expansion_lines
                (mkServiceData (Spec.inPackage d) (Spec.declName d) []))
      as (text & Hx & Hl).
    { unfold Spec.singleLineNames. simpl. now rewrite Hpkg, Hsvc. }
    rewrite expansion_bare in Hx. injection Hx as <-.
    rewrite Hl. unfold Spec.isTopLevel. filter_lines. reflexivity.
Qed.

Lemma X23_no_accepted_method_bare_client_witness :
  In (mkServiceData "api" "Echo" []) [mkServiceData "api" "Echo" []]
  /\ template.Execute parsedClientTemplate
       (reflectServiceData (mkServiceData "api" "Echo" []))
     = template.Done (Spec.bareClient "api" "Echo")
  /\ (Spec.singleLine "api" = true ->
      Spec.singleLine "Echo" = true ->
      filter Spec.isTopLevel (Spec.lines (Spec.bareClient "api" "Echo"))
      = [ "func init() {";
          "type EchoClient struct {";
          "func NewEchoClient(address string) (*EchoClient, error) {";
          "func (c *EchoClient) Close() error {" ]).
Proof.
  apply (X23_no_accepted_method_bare_client [Examples.echoPackage]
           [mkServiceData "api" "Echo" []]
           (Spec.mkFound "api" "echo.go" "Echo" Examples.echoBare)).
  - reflexivity.
  - left. reflexivity.
  - reflexivity.
Defined.
